(** * lim: the Gaussian-process regression core and the heritability driver

    A shallow embedding of
      - [lim/gp/regression.py]        (module [GP]),
      - [lim/inference/regression.py] (module [Inference]),
      - [lim/tool/normalize.py] and [lim/genetics/heritability/estimate.py]
        (module [Estimate]),
      - [lim/genetics/qtl/binomial.py] (module [Scan]),
    followed by the properties established about them.

    Python evaluation is modelled in a state-and-exception monad: a method
    is a function from the object graph reachable from [self] to an outcome
    (a value or a raised exception) and the object graph afterwards.  An
    exception leaves the mutations performed so far in place, as in Python. *)

From Stdlib Require Import QArith Qcanon.
From stdpp Require Import gmap strings list fin_maps.
Close Scope Qc_scope.
Close Scope Q_scope.
Local Open Scope string_scope.

(** ** Outcomes of Python evaluation *)

Inductive exn : Type :=
  | AssertionError
  | ValueError
  | IndexError
  | TypeError
  | LinAlgError
  | MissingData (purpose : string)
  | NameError (name : string)
  | AttributeError (name : string)
  | Exception (msg : string).

Inductive result (A : Type) : Type :=
  | Ok (a : A)
  | Raise (e : exn).
Arguments Ok {A} a.
Arguments Raise {A} e.

Definition M (S A : Type) : Type := S → result A * S.

#[global] Instance M_ret {S} : MRet (M S) := λ A a s, (Ok a, s).
#[global] Instance M_bind {S} : MBind (M S) := λ A B f m s,
  match m s with
  | (Ok a, s') => f a s'
  | (Raise e, s') => (Raise e, s')
  end.

Definition raise {S A} (e : exn) : M S A := λ s, (Raise e, s).
Definition lift {S A} (r : result A) : M S A := λ s, (r, s).
Definition gets {S A} (f : S → A) : M S A := λ s, (Ok (f s), s).
Definition modify {S} (f : S → S) : M S unit := λ s, (Ok tt, f s).

(** [assert c] *)
Definition assert {S} (c : bool) : M S unit :=
  if c then mret tt else raise AssertionError.

(** [for x in l: ys.append(f(x))] *)
Fixpoint for_each {S A B} (f : A → M S B) (l : list A) : M S (list B) :=
  match l with
  | [] => mret []
  | x :: l' => y ← f x; ys ← for_each f l'; mret (y :: ys)
  end.

(** [l[i]] on a Python list *)
Definition getitem {A} (l : list A) (i : nat) : result A :=
  match l !! i with
  | Some x => Ok x
  | None => Raise IndexError
  end.

(** ** Numbers

    The scalar type of the arrays with the operations the code applies to
    it.  Nothing is assumed of them here, so what is proved from this
    interface alone holds for IEEE doubles as for exact arithmetic. *)

Class Scalar (R : Type) : Type := {
  fadd : R → R → R;
  fsub : R → R → R;
  fmul : R → R → R;
  fdiv : R → R → R;
  fneg : R → R;
  of_int : Z → R;
  flog : R → R;
  fpi : R;
  feqb : R → R → bool
}.

(** ** numpy arrays *)

Section numpy.
Context {R : Type} `{!Scalar R}.

(** one-dimensional arrays *)
Definition vector : Type := list R.

(** two-dimensional arrays, row by row; [nrows] is the number of rows *)
Record matrix : Type := Matrix {
  ncols : nat;
  rows : list (list R)
}.

Definition nrows (A : matrix) : nat := length (rows A).

(** [len(v)] *)
Definition len (v : vector) : Z := Z.of_nat (length v).

(** [v.sum()] *)
Definition vsum (v : vector) : R := foldl fadd (of_int 0) v.

(** elementwise binary operation on one-dimensional arrays, with numpy's
    broadcasting of an array of length one *)
Definition broadcast (f : R → R → R) (a b : vector) : result vector :=
  if decide (length a = length b) then Ok (zip_with f a b)
  else match a, b with
       | [x], _ => Ok (map (f x) b)
       | _, [y] => Ok (map (λ x, f x y) a)
       | _, _ => Raise ValueError
       end.

(** [a - b], [a + b] *)
Definition sub : vector → vector → result vector := broadcast fsub.
Definition add : vector → vector → result vector := broadcast fadd.

(** [a.dot(b)], both one-dimensional *)
Definition dot (a b : vector) : result R :=
  if decide (length a = length b) then Ok (vsum (zip_with fmul a b))
  else Raise ValueError.

(** [A.dot(v)], [A] two-dimensional and [v] one-dimensional *)
Definition matvec (A : matrix) (v : vector) : result vector :=
  if decide (ncols A = length v)
  then Ok (map (λ r, vsum (zip_with fmul r v)) (rows A))
  else Raise ValueError.

(** [A[i, j]] *)
Definition entry (A : matrix) (i j : nat) : R :=
  nth j (nth i (rows A) []) (of_int 0).

(** [A.T] *)
Definition transpose (A : matrix) : matrix :=
  {| ncols := nrows A;
     rows := map (λ j, map (λ r, nth j r (of_int 0)) (rows A))
                 (seq 0 (ncols A)) |}.

(** [A.diagonal()] *)
Definition diagonal (A : matrix) : vector :=
  map (λ i, entry A i i) (seq 0 (Nat.min (nrows A) (ncols A))).
End numpy.
Arguments matrix R : clear implicits.
Arguments vector R : clear implicits.

(** [numpy.linalg]: the LAPACK-backed routines the code calls.  [solve] is
    used with a vector and with a matrix as right-hand side. *)
Class Linalg (R : Type) : Type := {
  solve : matrix R → vector R → result (vector R);
  solve_matrix : matrix R → matrix R → result (matrix R);
  slogdet : matrix R → result (R * R)
}.

Declare Scope scalar_scope.
Delimit Scope scalar_scope with R.
Infix "⊕" := fadd (at level 50, left associativity) : scalar_scope.
Infix "⊖" := fsub (at level 50, left associativity) : scalar_scope.
Infix "⊗" := fmul (at level 40, left associativity) : scalar_scope.
Infix "⊘" := fdiv (at level 40, left associativity) : scalar_scope.
Notation "⊖ x" := (fneg x) (at level 35, right associativity) : scalar_scope.

(** ** Mean and covariance function objects, variable sets *)

Module Fn.
Section func.
Context {R : Type}.

(** a hyperparameter: its name, its current value and its fixed flag *)
Record variable : Type := {
  var_name : string;
  var_value : R;
  var_fixed : bool
}.

(** [vs.select(fixed=False)] *)
Definition select_free (vs : list variable) : list variable :=
  filter (λ v, var_fixed v = false) vs.

(** Modelled from the spec: [lim.func.merge_variables], which is not among
    the sources.  The variable sets of several owners become one ordered
    set, each variable qualified by the role of its owner; the owners are
    taken in the order given, each owner's variables in its own order. *)
Definition merge_variables (d : list (string * list variable))
    : list (string * variable) :=
  flat_map (λ ovs, map (pair ovs.1) ovs.2) d.

(** what [f.data(purpose)] returns: the bound raw inputs, and the value
    and the derivatives of the function over them ([value()] and
    [gradient()], either of which may raise) *)
Record Handle (Raw V : Type) : Type := {
  raw : Raw;
  hd_value : result V;
  hd_gradient : result (list V)
}.

(** Modelled from the spec: the mean and covariance function objects
    ([lim.mean], [lim.cov]), which are not among the sources, by the
    contract the regression core consumes.  An object owns its
    hyperparameters in declared order and a binding of raw inputs per
    purpose; its class fixes how the value and the derivatives (one per
    free hyperparameter, in declared order) are computed from the
    hyperparameters and the inputs bound under a purpose. *)
Record Func (Raw V : Type) : Type := {
  f_variables : list variable;
  f_bound : gmap string Raw;
  f_value : list variable → Raw → result V;
  f_gradient : list variable → Raw → result (list V)
}.
Arguments raw {Raw V} _.
Arguments hd_value {Raw V} _.
Arguments hd_gradient {Raw V} _.
Arguments f_variables {Raw V} _.
Arguments f_bound {Raw V} _.
Arguments f_value {Raw V} _ _ _.
Arguments f_gradient {Raw V} _ _ _.

Section methods.
Context {Raw V : Type}.

(** [f.variables()] *)
Definition variables (f : Func Raw V) : list variable := f_variables f.

(** [f.data(purpose)]: fatal when nothing is bound under the purpose *)
Definition data (f : Func Raw V) (purpose : string)
    : result (Handle Raw V) :=
  match f_bound f !! purpose with
  | Some r => Ok {| raw := r;
                    hd_value := f_value f (f_variables f) r;
                    hd_gradient := f_gradient f (f_variables f) r |}
  | None => Raise (MissingData purpose)
  end.

(** [f.set_data(raw, purpose=purpose)] *)
Definition set_data (r : Raw) (purpose : string) (f : Func Raw V)
    : Func Raw V :=
  {| f_variables := f_variables f;
     f_bound := <[purpose := r]> (f_bound f);
     f_value := f_value f;
     f_gradient := f_gradient f |}.

(** [f.unset_data(purpose=purpose)] *)
Definition unset_data (purpose : string) (f : Func Raw V) : Func Raw V :=
  {| f_variables := f_variables f;
     f_bound := delete purpose (f_bound f);
     f_value := f_value f;
     f_gradient := f_gradient f |}.
End methods.
End func.
Arguments variable R : clear implicits.
Arguments Func R Raw V : clear implicits.
Arguments raw {Raw V} _.
Arguments hd_value {Raw V} _.
Arguments hd_gradient {Raw V} _.
Arguments f_variables {R Raw V} _.
Arguments f_bound {R Raw V} _.
Arguments f_value {R Raw V} _ _ _.
Arguments f_gradient {R Raw V} _ _ _.
End Fn.
Export Fn.

(** ** The objects of a regression core

    A [RegGP] instance references the observation vector, a covariance
    object and a mean object; the record is the object graph reachable
    from [self].  A covariance object is bound to a pair of inputs, a mean
    object to inputs of its own kind.  [_dict] holds the names of the
    attributes assigned to the instance after construction. *)

Section objects.
Context {R : Type} `{!Scalar R} {X MRaw : Type}.

Record RegGP : Type := {
  _y : vector R;
  _cov : Func R (X * X) (matrix R);
  _mean : Func R MRaw (vector R);
  _dict : gset string
}.

Definition with_cov (c : Func R (X * X) (matrix R)) (self : RegGP) : RegGP :=
  {| _y := _y self; _cov := c; _mean := _mean self; _dict := _dict self |}.

(** [self.name = ...] for a name that is not a field *)
Definition setattr (name : string) (self : RegGP) : RegGP :=
  {| _y := _y self; _cov := _cov self; _mean := _mean self;
     _dict := {[name]} ∪ _dict self |}.

(** [mean.data(purpose)], [cov.data(purpose)] on the referenced objects *)
Definition mean_data (purpose : string)
    : M RegGP (Handle MRaw (vector R)) :=
  λ self, (data (_mean self) purpose, self).

Definition cov_data (purpose : string)
    : M RegGP (Handle (X * X) (matrix R)) :=
  λ self, (data (_cov self) purpose, self).

(** [h.value()], [h.gradient()] *)
Definition h_value {Raw V} (h : Handle Raw V) : M RegGP V :=
  lift (hd_value h).

Definition h_gradient {Raw V} (h : Handle Raw V) : M RegGP (list V) :=
  lift (hd_gradient h).

(** Modelled from the spec: the class of [cov] is not among the sources.
    Its [set_data(raw_inputs, purpose)] takes the data as one argument; the
    tests bind a covariance function by
    [cov.set_data((X0, X1), purpose='learn_predict')].  The call
    [cov.set_data(a, b, purpose=purpose)] has two positional arguments and
    the keyword: the second positional argument and the keyword both go to
    the parameter [purpose], and Python raises [TypeError] before the
    method runs.  Nothing is bound. *)
Definition cov_set_data (a b : X) (purpose : string) : M RegGP unit :=
  raise TypeError.

(** [cov.unset_data(purpose=purpose)] *)

Definition cov_unset_data (purpose : string) : M RegGP unit :=
  modify (λ self, with_cov (unset_data purpose (_cov self)) self).

(** what an optimizer sees of the object it is given *)
Record Objective : Type := {
  obj_value : M RegGP R;
  obj_gradient : M RegGP (list R);
  obj_variables : M RegGP (list (string * variable R))
}.

(** [lim.func.optimize.brent.maximize], [lim.func.optimize.tnc.maximize]:
    an optimizer queries the objective and updates the hyperparameters
    held by the mean and covariance objects in place *)
Definition Optimizer : Type := Objective → M RegGP unit.
End objects.
Arguments RegGP R X MRaw : clear implicits.
Arguments Objective R X MRaw : clear implicits.
Arguments Optimizer R X MRaw : clear implicits.

(** ** [lim/gp/regression.py] *)

Module GP.
Section RegGP.
Context {R : Type} `{!Scalar R} `{!Linalg R} {X MRaw : Type}.
Variables maximize_scalar maximize_array : Optimizer R X MRaw.
#[local] Abbreviation Self := (RegGP R X MRaw).
Local Open Scope scalar_scope.

Definition __init__ (y : vector R) (mean : Func R MRaw (vector R))
    (cov : Func R (X * X) (matrix R)) : result Self :=
  Ok {| _y := y; _cov := cov; _mean := mean; _dict := ∅ |}.

Definition _Kim : M Self (vector R) :=
  m ← mean_data "learn" ≫= h_value;
  K ← cov_data "learn" ≫= h_value;
  y ← gets _y;
  ym ← lift (sub y m);
  lift (solve K ym).

Definition lml : M Self R :=
  y ← gets _y;
  Kiym ← _Kim;
  m ← mean_data "learn" ≫= h_value;
  ym ← lift (sub y m);
  K ← cov_data "learn" ≫= h_value;
  '(s, logdet) ← lift (slogdet K);
  assert (feqb s (of_int 1));;
  let n := len y in
  q ← lift (dot ym Kiym);
  mret (⊖ (logdet ⊕ q ⊕ of_int n ⊗ flog (of_int 2 ⊗ fpi)) ⊘ of_int 2).

Definition _lml_gradient_mean : M Self (list R) :=
  vars_ ← gets (λ self, select_free (Fn.variables (_mean self)));
  Kiym ← _Kim;
  for_each (λ i,
      gs ← mean_data "learn" ≫= h_gradient;
      dm ← lift (getitem gs i);
      lift (dot dm Kiym))
    (seq 0 (length vars_)).

Definition _lml_gradient_cov : M Self (list R) :=
  vars_ ← gets (λ self, select_free (Fn.variables (_cov self)));
  K ← cov_data "learn" ≫= h_value;
  Kiym ← _Kim;
  g ← for_each (λ i,
      gs ← cov_data "learn" ≫= h_gradient;
      dK ← lift (getitem gs i);
      KidK ← lift (solve_matrix K dK);
      dKKiym ← lift (matvec dK Kiym);
      q ← lift (dot Kiym dKKiym);
      mret (⊖ vsum (diagonal KidK) ⊕ q))
    (seq 0 (length vars_));
  mret (map (λ gi, gi ⊘ of_int 2) g).

Definition lml_gradient : M Self (list R) :=
  grad_cov ← _lml_gradient_cov;
  grad_mean ← _lml_gradient_mean;
  mret (grad_cov ++ grad_mean)%list.

Definition variables : M Self (list (string * variable R)) :=
  v0 ← gets (λ self, select_free (Fn.variables (_mean self)));
  v1 ← gets (λ self, select_free (Fn.variables (_cov self)));
  mret (merge_variables [("mean", v0); ("cov", v1)]).

(** [self.value()], [self.gradient()]: instance attributes, assigned by
    [learn] *)
Definition value : M Self R :=
  d ← gets _dict;
  if decide ("value" ∈ d) then lml else raise (AttributeError "value").

Definition gradient : M Self (list R) :=
  d ← gets _dict;
  if decide ("gradient" ∈ d) then lml_gradient
  else raise (AttributeError "gradient").

(** [self], as the optimizers see it *)
Definition self_ : Objective R X MRaw :=
  {| obj_value := value; obj_gradient := gradient; obj_variables := variables |}.

Definition learn : M Self unit :=
  modify (setattr "value");;
  modify (setattr "gradient");;
  vs ← variables;
  if decide (length vs = 0) then mret tt
  else
    vs' ← variables;
    if decide (length vs' = 1) then maximize_scalar self_
    else maximize_array self_.

Definition predict : M Self (vector R) :=
  m_p ← mean_data "predict" ≫= h_value;
  _Kim' ← _Kim;
  K_pp ← cov_data "predict" ≫= h_value;
  hl ← cov_data "learn";
  hp ← cov_data "predict";
  cov_set_data (raw hl).1 (raw hp).1 "learn_predict";;
  K_lp ← cov_data "learn_predict" ≫= h_value;
  t ← lift (matvec (transpose K_lp) _Kim');
  est_mean ← lift (add m_p t);
  cov_unset_data "learn_predict";;
  mret est_mean.
End RegGP.
End GP.

(** ** [lim/inference/regression.py] *)

Module Inference.
Section RegGP.
Context {R : Type} `{!Scalar R} `{!Linalg R} {X MRaw : Type}.
Variables maximize_scalar maximize_array : Optimizer R X MRaw.
#[local] Abbreviation Self := (RegGP R X MRaw).
Local Open Scope scalar_scope.

Definition __init__ (y : vector R) (mean : Func R MRaw (vector R))
    (cov : Func R (X * X) (matrix R)) : result Self :=
  Ok {| _y := y; _cov := cov; _mean := mean; _dict := ∅ |}.

Definition _Kim : M Self (vector R) :=
  m ← mean_data "learn" ≫= h_value;
  K ← cov_data "learn" ≫= h_value;
  y ← gets _y;
  ym ← lift (sub y m);
  lift (solve K ym).

Definition lml : M Self R :=
  y ← gets _y;
  Kiym ← _Kim;
  m ← mean_data "learn" ≫= h_value;
  ym ← lift (sub y m);
  K ← cov_data "learn" ≫= h_value;
  '(s, logdet) ← lift (slogdet K);
  assert (feqb s (of_int 1));;
  let n := len y in
  q ← lift (dot ym Kiym);
  mret (⊖ (logdet ⊕ q ⊕ of_int n ⊗ flog (of_int 2 ⊗ fpi)) ⊘ of_int 2).

Definition _lml_gradient_mean : M Self (list R) :=
  vars_ ← gets (λ self, select_free (Fn.variables (_mean self)));
  Kiym ← _Kim;
  for_each (λ i,
      gs ← mean_data "learn" ≫= h_gradient;
      dm ← lift (getitem gs i);
      lift (dot dm Kiym))
    (seq 0 (length vars_)).

Definition _lml_gradient_cov : M Self (list R) :=
  vars_ ← gets (λ self, select_free (Fn.variables (_cov self)));
  K ← cov_data "learn" ≫= h_value;
  Kiym ← _Kim;
  g ← for_each (λ i,
      gs ← cov_data "learn" ≫= h_gradient;
      dK ← lift (getitem gs i);
      KidK ← lift (solve_matrix K dK);
      dKKiym ← lift (matvec dK Kiym);
      q ← lift (dot Kiym dKKiym);
      mret (⊖ vsum (diagonal KidK) ⊕ q))
    (seq 0 (length vars_));
  mret (map (λ gi, gi ⊘ of_int 2) g).

Definition lml_gradient : M Self (list R) :=
  grad_cov ← _lml_gradient_cov;
  grad_mean ← _lml_gradient_mean;
  mret (grad_cov ++ grad_mean)%list.

Definition variables : M Self (list (string * variable R)) :=
  v0 ← gets (λ self, select_free (Fn.variables (_mean self)));
  v1 ← gets (λ self, select_free (Fn.variables (_cov self)));
  mret (merge_variables [("mean", v0); ("cov", v1)]).

Definition value : M Self R := lml.

Definition gradient : M Self (list R) := lml_gradient.

(** [self], as the optimizers see it *)
Definition self_ : Objective R X MRaw :=
  {| obj_value := value; obj_gradient := gradient; obj_variables := variables |}.

Definition learn : M Self unit :=
  vs ← variables;
  if decide (length vs = 0) then mret tt
  else
    vs' ← variables;
    if decide (length vs' = 1) then maximize_scalar self_
    else maximize_array self_.

Definition predict : M Self (vector R) :=
  m_p ← mean_data "predict" ≫= h_value;
  _Kim' ← _Kim;
  K_pp ← cov_data "predict" ≫= h_value;
  K_lp ← cov_data "learn_predict" ≫= h_value;
  t ← lift (matvec (transpose K_lp) _Kim');
  est_mean ← lift (add m_p t);
  mret est_mean.
End RegGP.
End Inference.

(** ** [lim/tool/normalize.py], [lim/genetics/heritability/estimate.py]

    The heritability driver only sequences calls into numpy, limix_math and
    the EP classes.  Its values are [None], integers, strings, tuples and
    objects of the libraries; what a library call returns, raises and
    mutates is left to an oracle [ext] over a heap, and the truth value of
    an object to [truth] (for a numpy array it may raise). *)

Module Estimate.

#[warnings="-register-all"]
Inductive pyval (Obj : Type) : Type :=
  | VNone
  | VInt (n : Z)
  | VStr (s : string)
  | VTuple (l : list (pyval Obj))
  | VObj (o : Obj).
Arguments VNone {Obj}.
Arguments VInt {Obj} n.
Arguments VStr {Obj} s.
Arguments VTuple {Obj} l.
Arguments VObj {Obj} o.

(** the names bound at the top level of [estimate.py] *)
Definition module_globals : list string :=
  [ "division"; "logging"; "ascontiguousarray"; "np";
    "BernoulliEP"; "BinomialEP"; "PoissonEP"; "stdnorm";
    "gower_normalization"; "qs_decomposition_from_K"; "qs_decomposition";
    "bernoulli_estimate"; "binomial_estimate"; "poisson_estimate" ].

Section driver.
Context {Obj Heap : Type}.
Variable ext : string → list (pyval Obj) → M Heap (pyval Obj).
Variable truth : pyval Obj → M Heap bool.
#[local] Abbreviation val := (pyval Obj).

(** [x is None] *)
Definition is_None (x : val) : bool :=
  match x with VNone => true | _ => false end.

(** [if x:] *)
Definition test (x : val) : M Heap bool :=
  match x with
  | VNone => mret false
  | _ => truth x
  end.

(** reading a name that the function never assigns: it is looked up among
    the globals of the module (no builtin is called [info] or [y]) *)
Definition load_global (name : string) : M Heap val :=
  if decide (name ∈ module_globals) then ext ("global " +:+ name) []
  else raise (NameError name).

(** the items that iterating over [x] yields: those of a tuple, the
    characters of a string; [None] and an integer are not iterable; an
    object of the libraries is iterated by the libraries, which answer
    with the tuple of its items, [tuple(x)], or raise *)
Definition items (x : val) : M Heap (list val) :=
  match x with
  | VTuple l => mret l
  | VStr s => mret ((λ c, VStr (String c EmptyString))
                    <$> String.list_ascii_of_string s)
  | VObj _ =>
      t ← ext "tuple" [x];
      match t with
      | VTuple l => mret l
      | _ => raise TypeError
      end
  | VNone | VInt _ => raise TypeError
  end.

(** [(a, b) = x]: [x] is iterated, and has to yield two items *)
Definition unpack2 (x : val) : M Heap (val * val) :=
  l ← items x;
  match l with
  | [a; b] => mret (a, b)
  | _ => raise ValueError
  end.

(** [target[index] /= rhs]: the element is read, then the right-hand side
    is evaluated, the element is divided in place and stored again *)
Definition itruediv_at (target index : val) (rhs : M Heap val)
    : M Heap unit :=
  element ← ext "getitem" [target; index];
  r ← rhs;
  element ← ext "itruediv" [element; r];
  ext "setitem" [target; index; element];;
  mret tt.

(** [stdnorm(X, axis, out)] of [lim/tool/normalize.py] *)
Definition stdnorm (X axis out : val) : M Heap val :=
  X ← ext "ascontiguousarray" [X];
  out ← (if is_None out then ext "ndarray.copy" [X] else mret out);
  m ← ext "ndarray.mean" [out; axis];
  s ← ext "ndarray.std" [out; axis];
  ok ← ext "gt" [s; VInt 0];
  out ← ext "isub" [out; m];
  ndim ← ext "ndarray.ndim" [out];
  match ndim with
  | VInt 1 =>
      c ← ext "gt" [s; VInt 0];
      b ← test c;
      if (b : bool) then ext "itruediv" [out; s] else mret out
  | _ =>
      itruediv_at out (VTuple [VStr "..."; ok]) (ext "getitem" [s; ok]);;
      mret out
  end.

Definition bernoulli_estimate (outcomes G K covariate : val) : M Heap val :=
  logger ← ext "logging.getLogger" [VStr "__name__"];
  ext "Logger.info"
    [logger; VStr "Heritability estimation for Bernoulli traits has started."];;
  outcomes ← ext "ascontiguousarray" [outcomes; VStr "float"];
  (if negb (is_None K) then
     ext "Logger.debug" [logger; VStr "Covariace matrix normalization."];;
     ext "gower_normalization" [K; K];;
     mret tt
   else mret tt);;
  G ← (if negb (is_None G) then
         ext "Logger.debug" [logger; VStr "Genetic markers normalization."];;
         stdnorm G G VNone;;
         mean ← ext "np.mean" [G; VInt 0];
         G ← ext "sub" [G; mean];
         s ← ext "np.std" [G; VInt 0];
         ok ← ext "gt" [s; VInt 0];
         itruediv_at G (VTuple [VStr ":"; ok]) (ext "getitem" [s; ok]);;
         shape ← ext "ndarray.shape" [G];
         ncol ← ext "getitem" [shape; VInt 1];
         root ← ext "np.sqrt" [ncol];
         ext "itruediv" [G; root]
       else mret G);
  (if is_None G && is_None K
   then raise (Exception "G, K, and QS cannot be all None.")
   else mret tt);;
  b ← test G;
  QS ← (if (b : bool) then ext "qs_decomposition" [G]
        else ext "qs_decomposition_from_K" [K]);
  '(Q, S') ← unpack2 QS;
  Q0 ← ext "getitem" [Q; VInt 0];
  Q1 ← ext "getitem" [Q; VInt 1];
  S0 ← ext "getitem" [S'; VInt 0];
  mean_S0 ← ext "np.mean" [S0];
  S0 ← ext "itruediv" [S0; mean_S0];
  info ← load_global "info";
  ext "setitem" [info; VStr "Q0"; Q0];;
  info ← load_global "info";
  ext "setitem" [info; VStr "Q1"; Q1];;
  info ← load_global "info";
  ext "setitem" [info; VStr "S0"; S0];;
  covariate ← (if is_None covariate then
                 ext "Logger.debug" [logger; VStr "Inserting offset covariate."];;
                 y ← load_global "y";
                 shape ← ext "ndarray.shape" [y];
                 n ← ext "getitem" [shape; VInt 0];
                 ext "np.ones" [VTuple [n; VInt 1]]
               else mret covariate);
  info ← load_global "info";
  ext "setitem" [info; VStr "covariate"; covariate];;
  ext "Logger.debug" [logger; VStr "Constructing EP."];;
  ep ← ext "BernoulliEP" [outcomes; covariate; Q0; Q1; S0];
  ext "Logger.debug" [logger; VStr "EP optimization."];;
  ext "BernoulliEP.optimize" [ep];;
  h2 ← ext "BernoulliEP.heritability" [ep];
  ext "Logger.info"
    [logger; VStr "Found heritability before correction: %.5f."; h2];;
  info ← load_global "info";
  ext "setitem" [info; VStr "ep"; ep];;
  info ← load_global "info";
  mret (VTuple [h2; info]).
Definition binomial_estimate (nsuccesses ntrials G K covariate : val)
    : M Heap val :=
  logger ← ext "logging.getLogger" [VStr "__name__"];
  ext "Logger.info" [logger; VStr "Heritability estimation has started."];;
  asarray ← load_global "asarray";
  nsuccesses ← ext "call" [asarray; nsuccesses; VStr "float"];
  asarray ← load_global "asarray";
  ntrials ← ext "call" [asarray; ntrials; VStr "float"];
  info ← ext "dict" [];
  K ← (if negb (is_None K) then
         ext "Logger.debug" [logger; VStr "Covariace matrix normalization."];;
         K ← ext "gower_normalization" [K];
         ext "setitem" [info; VStr "K"; K];;
         mret K
       else mret K);
  G ← (if negb (is_None G) then
         ext "Logger.debug" [logger; VStr "Genetic markers normalization."];;
         mean ← ext "np.mean" [G; VInt 0];
         G ← ext "sub" [G; mean];
         s ← ext "np.std" [G; VInt 0];
         ok ← ext "gt" [s; VInt 0];
         itruediv_at G (VTuple [VStr ":"; ok]) (ext "getitem" [s; ok]);;
         shape ← ext "ndarray.shape" [G];
         ncol ← ext "getitem" [shape; VInt 1];
         root ← ext "np.sqrt" [ncol];
         G ← ext "itruediv" [G; root];
         ext "setitem" [info; VStr "G"; G];;
         mret G
       else mret G);
  (if is_None G && is_None K
   then raise (Exception "G, K, and QS cannot be all None.")
   else mret tt);;
  b ← test G;
  QS ← (if (b : bool) then ext "qs_decomposition" [G]
        else ext "qs_decomposition_from_K" [K]);
  '(Q, S') ← unpack2 QS;
  Q0 ← ext "getitem" [Q; VInt 0];
  Q1 ← ext "getitem" [Q; VInt 1];
  S0 ← ext "getitem" [S'; VInt 0];
  mean_S0 ← ext "np.mean" [S0];
  S0 ← ext "itruediv" [S0; mean_S0];
  ext "setitem" [info; VStr "Q0"; Q0];;
  ext "setitem" [info; VStr "Q1"; Q1];;
  ext "setitem" [info; VStr "S0"; S0];;
  covariate ← (if is_None covariate then
                 ext "Logger.debug" [logger; VStr "Inserting offset covariate."];;
                 y ← load_global "y";
                 shape ← ext "ndarray.shape" [y];
                 n ← ext "getitem" [shape; VInt 0];
                 ext "np.ones" [VTuple [n; VInt 1]]
               else mret covariate);
  ext "setitem" [info; VStr "covariate"; covariate];;
  ext "Logger.debug" [logger; VStr "Constructing EP."];;
  ep ← ext "BinomialEP" [nsuccesses; ntrials; covariate; Q0; Q1; S0];
  ext "Logger.debug" [logger; VStr "EP optimization."];;
  ext "BinomialEP.optimize" [ep];;
  h2 ← ext "BinomialEP.heritability" [ep];
  ext "Logger.info"
    [logger; VStr "Found heritability before correction: %.5f."; h2];;
  ext "setitem" [info; VStr "ep"; ep];;
  mret (VTuple [h2; info]).

Definition poisson_estimate (nsuccesses G K covariate : val) : M Heap val :=
  logger ← ext "logging.getLogger" [VStr "__name__"];
  ext "Logger.info" [logger; VStr "Heritability estimation has started."];;
  asarray ← load_global "asarray";
  nsuccesses ← ext "call" [asarray; nsuccesses; VStr "float"];
  info ← ext "dict" [];
  K ← (if negb (is_None K) then
         ext "Logger.debug" [logger; VStr "Covariace matrix normalization."];;
         K ← ext "gower_normalization" [K];
         ext "setitem" [info; VStr "K"; K];;
         mret K
       else mret K);
  G ← (if negb (is_None G) then
         ext "Logger.debug" [logger; VStr "Genetic markers normalization."];;
         mean ← ext "np.mean" [G; VInt 0];
         G ← ext "sub" [G; mean];
         s ← ext "np.std" [G; VInt 0];
         ok ← ext "gt" [s; VInt 0];
         itruediv_at G (VTuple [VStr ":"; ok]) (ext "getitem" [s; ok]);;
         shape ← ext "ndarray.shape" [G];
         ncol ← ext "getitem" [shape; VInt 1];
         root ← ext "np.sqrt" [ncol];
         G ← ext "itruediv" [G; root];
         ext "setitem" [info; VStr "G"; G];;
         mret G
       else mret G);
  (if is_None G && is_None K
   then raise (Exception "G, K, and QS cannot be all None.")
   else mret tt);;
  b ← test G;
  QS ← (if (b : bool) then ext "qs_decomposition" [G]
        else ext "qs_decomposition_from_K" [K]);
  '(Q, S') ← unpack2 QS;
  Q0 ← ext "getitem" [Q; VInt 0];
  Q1 ← ext "getitem" [Q; VInt 1];
  S0 ← ext "getitem" [S'; VInt 0];
  mean_S0 ← ext "np.mean" [S0];
  S0 ← ext "itruediv" [S0; mean_S0];
  ext "setitem" [info; VStr "Q0"; Q0];;
  ext "setitem" [info; VStr "Q1"; Q1];;
  ext "setitem" [info; VStr "S0"; S0];;
  covariate ← (if is_None covariate then
                 ext "Logger.debug" [logger; VStr "Inserting offset covariate."];;
                 y ← load_global "y";
                 shape ← ext "ndarray.shape" [y];
                 n ← ext "getitem" [shape; VInt 0];
                 ext "np.ones" [VTuple [n; VInt 1]]
               else mret covariate);
  ext "setitem" [info; VStr "covariate"; covariate];;
  ext "Logger.debug" [logger; VStr "Constructing EP."];;
  ep ← ext "PoissonEP" [nsuccesses; covariate; Q0; Q1; S0];
  ext "Logger.debug" [logger; VStr "EP optimization."];;
  ext "PoissonEP.optimize" [ep];;
  h2 ← ext "PoissonEP.heritability" [ep];
  ext "Logger.info"
    [logger; VStr "Found heritability before correction: %.5f."; h2];;
  ext "setitem" [info; VStr "ep"; ep];;
  mret (VTuple [h2; info]).
End driver.
End Estimate.

(** ** [lim/genetics/qtl/binomial.py]

    The scan sequences calls into the EP class, behind two caches of
    cachetools.  A cache is an [LRUCache(maxsize=1)], and the key under
    which a method stores its result is [hashkey(self)], the same for
    every call on the instance: the cache is empty or holds the one value
    stored under that key.  [cachedmethod] returns the stored value when
    there is one; otherwise it runs the method, stores what it returns and
    returns it, and stores nothing when the method raises.  The state is
    the instance together with the heap of the libraries. *)

Module Scan.
Import Estimate.

Section scan.
Context {Obj Heap : Type}.
Variable ext : string → list (pyval Obj) → M Heap (pyval Obj).
#[local] Abbreviation val := (pyval Obj).

(** the attributes of an instance; the last three exist once assigned *)
Record BinomialQTLScan : Type := {
  _X : val;
  _cache_compute_null_model : option val;
  _cache_compute_alt_models : option val;
  _nsuccesses : val;
  _ntrials : val;
  _covariates : val;
  _Q0 : val;
  _Q1 : val;
  _S0 : val;
  _fixed_ep : val;
  _null_lml : option val;
  _alt_lmls : option val;
  _effect_sizes : option val
}.

#[local] Abbreviation World := (BinomialQTLScan * Heap)%type.

(** a call into the libraries *)
Definition call (name : string) (args : list val) : M World val :=
  λ w, let '(r, h) := ext name args w.2 in (r, (w.1, h)).

(** [obj.name(args)]: [None], numbers, strings and tuples have no such
    method *)
Definition call_method (obj : val) (name : string) (args : list val)
    : M World val :=
  match obj with
  | VObj _ => call name (obj :: args)
  | _ => raise (AttributeError name)
  end.

(** [self.attr] and [self.attr = v] *)
Definition getattr {A} (f : BinomialQTLScan → A) : M World A :=
  gets (λ w, f w.1).

Definition setattr (f : BinomialQTLScan → BinomialQTLScan) : M World unit :=
  modify (λ w, (f w.1, w.2)).

Definition set_cache_null (c : option val) (s : BinomialQTLScan)
    : BinomialQTLScan :=
  {| _X := _X s; _cache_compute_null_model := c;
     _cache_compute_alt_models := _cache_compute_alt_models s;
     _nsuccesses := _nsuccesses s; _ntrials := _ntrials s;
     _covariates := _covariates s; _Q0 := _Q0 s; _Q1 := _Q1 s; _S0 := _S0 s;
     _fixed_ep := _fixed_ep s; _null_lml := _null_lml s;
     _alt_lmls := _alt_lmls s; _effect_sizes := _effect_sizes s |}.

Definition set_cache_alt (c : option val) (s : BinomialQTLScan)
    : BinomialQTLScan :=
  {| _X := _X s; _cache_compute_null_model := _cache_compute_null_model s;
     _cache_compute_alt_models := c;
     _nsuccesses := _nsuccesses s; _ntrials := _ntrials s;
     _covariates := _covariates s; _Q0 := _Q0 s; _Q1 := _Q1 s; _S0 := _S0 s;
     _fixed_ep := _fixed_ep s; _null_lml := _null_lml s;
     _alt_lmls := _alt_lmls s; _effect_sizes := _effect_sizes s |}.

Definition set_null_lml (v : val) (s : BinomialQTLScan) : BinomialQTLScan :=
  {| _X := _X s; _cache_compute_null_model := _cache_compute_null_model s;
     _cache_compute_alt_models := _cache_compute_alt_models s;
     _nsuccesses := _nsuccesses s; _ntrials := _ntrials s;
     _covariates := _covariates s; _Q0 := _Q0 s; _Q1 := _Q1 s; _S0 := _S0 s;
     _fixed_ep := _fixed_ep s; _null_lml := Some v;
     _alt_lmls := _alt_lmls s; _effect_sizes := _effect_sizes s |}.

Definition set_fixed_ep (v : val) (s : BinomialQTLScan) : BinomialQTLScan :=
  {| _X := _X s; _cache_compute_null_model := _cache_compute_null_model s;
     _cache_compute_alt_models := _cache_compute_alt_models s;
     _nsuccesses := _nsuccesses s; _ntrials := _ntrials s;
     _covariates := _covariates s; _Q0 := _Q0 s; _Q1 := _Q1 s; _S0 := _S0 s;
     _fixed_ep := v; _null_lml := _null_lml s;
     _alt_lmls := _alt_lmls s; _effect_sizes := _effect_sizes s |}.

Definition set_alt (a b : val) (s : BinomialQTLScan) : BinomialQTLScan :=
  {| _X := _X s; _cache_compute_null_model := _cache_compute_null_model s;
     _cache_compute_alt_models := _cache_compute_alt_models s;
     _nsuccesses := _nsuccesses s; _ntrials := _ntrials s;
     _covariates := _covariates s; _Q0 := _Q0 s; _Q1 := _Q1 s; _S0 := _S0 s;
     _fixed_ep := _fixed_ep s; _null_lml := _null_lml s;
     _alt_lmls := Some a; _effect_sizes := Some b |}.

(** [@cachedmethod(attrgetter(cache), key=lambda self, progress:
    hashkey(self))] around a method of one argument *)
Definition cachedmethod (cache : BinomialQTLScan → option val)
    (store : option val → BinomialQTLScan → BinomialQTLScan)
    (method : val → M World val) (progress : val) : M World val :=
  c ← getattr cache;
  match c with
  | Some v => mret v
  | None =>
      v ← method progress;
      setattr (store (Some v));;
      mret v
  end.

(** [__init__]; the base class [QTLScan] is not among the sources, and its
    constructor is taken to keep [X] as [self._X], where
    [_compute_alt_models] reads it *)
Definition __init__ (nsuccesses ntrials covariates X Q0 Q1 S0 : val)
    : BinomialQTLScan :=
  {| _X := X;
     _cache_compute_null_model := None;
     _cache_compute_alt_models := None;
     _nsuccesses := nsuccesses; _ntrials := ntrials;
     _covariates := covariates; _Q0 := Q0; _Q1 := Q1; _S0 := S0;
     _fixed_ep := VNone;
     _null_lml := None; _alt_lmls := None; _effect_sizes := None |}.

(** the body of [_compute_null_model] *)
Definition null_model_body (progress : val) : M World val :=
  nsuccesses ← getattr _nsuccesses;
  ntrials ← getattr _ntrials;
  Q0 ← getattr _Q0;
  Q1 ← getattr _Q1;
  S0 ← getattr _S0;
  covariates ← getattr _covariates;
  ep ← call "BinomialEP" [nsuccesses; ntrials; covariates; Q0; Q1; S0];
  call_method ep "optimize" [progress];;
  l ← call_method ep "lml" [];
  setattr (set_null_lml l);;
  f ← call_method ep "fixed_ep" [];
  setattr (set_fixed_ep f);;
  mret VNone.

Definition _compute_null_model : val → M World val :=
  cachedmethod _cache_compute_null_model set_cache_null null_model_body.

(** [(a, b) = x]: [x] is iterated as in [Estimate.items], and has to
    yield two items *)
Definition items (x : val) : M World (list val) :=
  match x with
  | VTuple l => mret l
  | VStr s => mret ((λ c, VStr (String c EmptyString))
                    <$> String.list_ascii_of_string s)
  | VObj _ =>
      t ← call "tuple" [x];
      match t with
      | VTuple l => mret l
      | _ => raise TypeError
      end
  | VNone | VInt _ => raise TypeError
  end.

Definition unpack_pair (x : val) : M World (val * val) :=
  l ← items x;
  match l with
  | [a; b] => mret (a, b)
  | _ => raise ValueError
  end.

(** the body of [_compute_alt_models] *)
Definition alt_models_body (progress : val) : M World val :=
  fep ← getattr _fixed_ep;
  covariates ← getattr _covariates;
  X ← getattr _X;
  r ← call_method fep "compute" [covariates; X];
  '(a, b) ← unpack_pair r;
  setattr (set_alt a b);;
  mret VNone.

Definition _compute_alt_models : val → M World val :=
  cachedmethod _cache_compute_alt_models set_cache_alt alt_models_body.

(** [null_model] *)
Definition null_model : M World val := mret VNone.
End scan.
End Scan.

(** ** A reference instance over the rationals

    Exact rational arithmetic, with linear systems solved by Cramer's rule.
    The logarithm has no rational values: it is replaced by [x ↦ x - 1],
    and π by 22/7.  The instance serves to run the definitions on concrete
    inputs; no property is derived from these two choices. *)

Module Exact.
Local Open Scope Qc_scope.

#[global] Instance Qc_scalar : Scalar Qc := {|
  fadd := Qcplus;
  fsub := Qcminus;
  fmul := Qcmult;
  fdiv := Qcdiv;
  fneg := Qcopp;
  of_int := Qc_of_Z;
  flog := λ x, x - 1;
  fpi := Q2Qc (22 # 7);
  feqb := λ a b, Qeq_bool (this a) (this b)
|}.

(** the determinant, by expansion along the first row; [n] bounds the size *)
Fixpoint det (n : nat) (A : list (list Qc)) : Qc :=
  match n, A with
  | S n', r :: rest =>
      foldr Qcplus 0
        (imap (λ j a, (if Nat.even j then a else - a)
                       * det n' (map (delete j) rest)) r)
  | _, _ => 1
  end.

Definition determinant (A : matrix Qc) : Qc := det (nrows A) (rows A).

Definition replace_column (A : matrix Qc) (j : nat) (b : vector Qc) : matrix Qc :=
  {| ncols := ncols A; rows := zip_with (λ r bi, <[j := bi]> r) (rows A) b |}.

Definition cramer (A : matrix Qc) (b : vector Qc) : result (vector Qc) :=
  if decide (nrows A = ncols A ∧ ncols A = length b) then
    if Qeq_bool (this (determinant A)) 0 then Raise LinAlgError
    else Ok (map (λ j, determinant (replace_column A j b) / determinant A)
                 (seq 0 (ncols A)))
  else Raise LinAlgError.

Definition cramer_matrix (A B : matrix Qc) : result (matrix Qc) :=
  if decide (nrows A = ncols A ∧ ncols A = nrows B) then
    if Qeq_bool (this (determinant A)) 0 then Raise LinAlgError
    else Ok (transpose
               {| ncols := nrows B;
                  rows := map (λ c, map (λ j, determinant (replace_column A j c)
                                              / determinant A)
                                        (seq 0 (ncols A)))
                              (rows (transpose B)) |})
  else Raise LinAlgError.

Definition sign_logdet (A : matrix Qc) : result (Qc * Qc) :=
  if decide (nrows A = ncols A) then
    let d := determinant A in
    match (this d ?= 0)%Q with
    | Gt => Ok (1, flog d)
    | Lt => Ok (- 1, flog (- d))
    | Eq => Ok (0, flog 0)
    end
  else Raise LinAlgError.

#[global] Instance Qc_linalg : Linalg Qc := {|
  solve := cramer;
  solve_matrix := cramer_matrix;
  slogdet := sign_logdet
|}.

(** the value of the first hyperparameter called [name] *)
Definition hyper (name : string) (vs : list (variable Qc)) : Qc :=
  match filter (λ v, var_name v = name) vs with
  | v :: _ => var_value v
  | [] => 0
  end.

(** a mean function with one hyperparameter [offset], bound to a number of
    samples [n]: the constant vector of length [n] *)
Definition offset_mean (offset : Qc) (fixed : bool) (bound : gmap string nat)
    : Func Qc nat (vector Qc) :=
  {| f_variables := [ {| var_name := "offset"; var_value := offset;
                         var_fixed := fixed |} ];
     f_bound := bound;
     f_value := λ vs n, Ok (replicate n (hyper "offset" vs));
     f_gradient := λ vs n, Ok ((λ _, replicate n 1) <$> select_free vs) |}.

(** a covariance function with one hyperparameter [scale], bound to two
    lists of samples [(X0, X1)]: [scale] times the matrix of the inner
    products of the samples of [X0] with those of [X1] *)
Definition inner_products (X0 X1 : list (vector Qc)) : matrix Qc :=
  {| ncols := length X1;
     rows := map (λ x0, map (λ x1, vsum (zip_with Qcmult x0 x1)) X1) X0 |}.

Definition scale_matrix (c : Qc) (A : matrix Qc) : matrix Qc :=
  {| ncols := ncols A; rows := map (map (Qcmult c)) (rows A) |}.

Definition linear_cov (scale : Qc) (fixed : bool)
    (bound : gmap string (list (vector Qc) * list (vector Qc)))
    : Func Qc (list (vector Qc) * list (vector Qc)) (matrix Qc) :=
  {| f_variables := [ {| var_name := "scale"; var_value := scale;
                         var_fixed := fixed |} ];
     f_bound := bound;
     f_value := λ vs X, Ok (scale_matrix (hyper "scale" vs)
                                         (inner_products X.1 X.2));
     f_gradient := λ vs X, Ok ((λ _, inner_products X.1 X.2)
                               <$> select_free vs) |}.

(** the inverse of the learn-purpose covariance of [example] below *)
Definition K_inverse : matrix Qc :=
  {| ncols := 2;
     rows := [ [Qc_of_Z 2; Qc_of_Z (-1)]; [Qc_of_Z (-1); 1] ] |}.

(** an optimizer that evaluates the objective once, and one that evaluates
    its gradient once *)
Definition probe_value {X MRaw} : Optimizer Qc X MRaw :=
  λ obj, obj_value obj;; mret tt.

Definition probe_gradient {X MRaw} : Optimizer Qc X MRaw :=
  λ obj, obj_gradient obj;; mret tt.

(** three samples with two features; the first two are learnt from, the
    third is predicted *)
Definition X_learn : list (vector Qc) := [ [1; 0]; [1; 1] ].
Definition X_predict : list (vector Qc) := [ [Qc_of_Z 2; 1] ].

Definition example_of (y : vector Qc) (scale : Qc) (X : list (vector Qc))
    (offset_fixed scale_fixed : bool) : RegGP Qc (list (vector Qc)) nat :=
  {| _y := y;
     _cov := linear_cov scale scale_fixed
               (<["learn" := (X, X)]>
                (<["predict" := (X_predict, X_predict)]>
                 (<["learn_predict" := (X, X_predict)]> ∅)));
     _mean := offset_mean 1 offset_fixed
                (<["learn" := length X]> (<["predict" := 1%nat]> ∅));
     _dict := ∅ |}.

Definition example : bool → bool → RegGP Qc (list (vector Qc)) nat :=
  example_of [Qc_of_Z 3; Qc_of_Z 2] 1 X_learn.

(** one observation and a covariance of scale [-1], whose determinant is
    negative *)
Definition example_negative : RegGP Qc (list (vector Qc)) nat :=
  example_of [Qc_of_Z 3] (Q2Qc (-1)) [ [1; 0] ] false false.

(** three observations, for the two learn-purpose samples of [example] *)
Definition y_long : vector Qc := [Qc_of_Z 3; Qc_of_Z 2; 1].


(** two learn-purpose samples that are the same sample: the covariance is
    singular *)
Definition example_singular : RegGP Qc (list (vector Qc)) nat :=
  example_of [Qc_of_Z 3; Qc_of_Z 2] 1 [ [1; 0]; [1; 0] ] false false.

(** a mean function with two free hyperparameters whose [gradient()]
    returns the derivatives [dMs], whatever their number *)
Definition stub_mean (dMs : list (vector Qc)) (bound : gmap string nat)
    : Func Qc nat (vector Qc) :=
  {| f_variables := [ {| var_name := "offset"; var_value := 1;
                         var_fixed := false |};
                      {| var_name := "slope"; var_value := 0;
                         var_fixed := false |} ];
     f_bound := bound;
     f_value := λ vs n, Ok (replicate n (hyper "offset" vs));
     f_gradient := λ _ _, Ok dMs |}.

(** likewise a covariance function *)
Definition stub_cov (dKs : list (matrix Qc))
    (bound : gmap string (list (vector Qc) * list (vector Qc)))
    : Func Qc (list (vector Qc) * list (vector Qc)) (matrix Qc) :=
  {| f_variables := [ {| var_name := "scale"; var_value := 1;
                         var_fixed := false |};
                      {| var_name := "noise"; var_value := 0;
                         var_fixed := false |} ];
     f_bound := bound;
     f_value := λ vs X, Ok (scale_matrix (hyper "scale" vs)
                                         (inner_products X.1 X.2));
     f_gradient := λ _ _, Ok dKs |}.

Definition example_stub_mean (dMs : list (vector Qc))
    : RegGP Qc (list (vector Qc)) nat :=
  {| _y := _y (example false false);
     _cov := _cov (example false false);
     _mean := stub_mean dMs (f_bound (_mean (example false false)));
     _dict := ∅ |}.

Definition example_stub_cov (dKs : list (matrix Qc))
    : RegGP Qc (list (vector Qc)) nat :=
  with_cov (stub_cov dKs (f_bound (_cov (example false false))))
           (example false false).

(** a covariance function like [linear_cov], except over two lists of
    samples that differ, where its value is the outcome [cross X0 X1] *)
Definition cross_cov
    (cross : list (vector Qc) → list (vector Qc) → result (matrix Qc))
    (bound : gmap string (list (vector Qc) * list (vector Qc)))
    : Func Qc (list (vector Qc) * list (vector Qc)) (matrix Qc) :=
  {| f_variables := [ {| var_name := "scale"; var_value := 1;
                         var_fixed := false |} ];
     f_bound := bound;
     f_value := λ vs X,
       if decide (X.1 = X.2)
       then Ok (scale_matrix (hyper "scale" vs) (inner_products X.1 X.2))
       else cross X.1 X.2;
     f_gradient := λ vs X, Ok ((λ _, inner_products X.1 X.2)
                               <$> select_free vs) |}.

(** [example] with that covariance function, bound to [rp] under
    [predict] *)
Definition example_cross
    (cross : list (vector Qc) → list (vector Qc) → result (matrix Qc))
    (rp : list (vector Qc) * list (vector Qc))
    : RegGP Qc (list (vector Qc)) nat :=
  with_cov (cross_cov cross
              (<["predict" := rp]> (f_bound (_cov (example false false)))))
           (example false false).

(** a cross-covariance that is not defined *)
Definition cross_undefined (X0 X1 : list (vector Qc)) : result (matrix Qc) :=
  Raise (Exception "no cross-covariance").

(** derivatives for [stub_mean] and [stub_cov]: one, where two
    hyperparameters are free, and three, of which the last has not the
    length of the observations *)
Definition one_derivative : list (vector Qc) := [ [1; 1] ].

Definition three_derivatives : list (vector Qc) := [ [1; 1]; [0; 1]; [1] ].

Definition one_cov_derivative : list (matrix Qc) :=
  [ inner_products X_learn X_learn ].
End Exact.


(** ** Vocabulary of the properties *)

Section vocabulary.
Context {R : Type} `{!Scalar R} `{!Linalg R} {X MRaw : Type}.
Implicit Type self : RegGP R X MRaw.
Local Open Scope scalar_scope.

(** the mean (covariance) function has value [m] ([K]) under a purpose:
    data is bound under it and [value()] returns *)
Definition mean_value self (purpose : string) (m : vector R) : Prop :=
  ∃ h, data (_mean self) purpose = Ok h ∧ hd_value h = Ok m.

Definition cov_value self (purpose : string) (K : matrix R) : Prop :=
  ∃ h, data (_cov self) purpose = Ok h ∧ hd_value h = Ok K.

(** likewise for the derivatives returned by [gradient()] *)
Definition mean_gradient self (purpose : string) (dMs : list (vector R)) : Prop :=
  ∃ h, data (_mean self) purpose = Ok h ∧ hd_gradient h = Ok dMs.

Definition cov_gradient self (purpose : string) (dKs : list (matrix R)) : Prop :=
  ∃ h, data (_cov self) purpose = Ok h ∧ hd_gradient h = Ok dKs.

(** [Kiym] is the result of the linear solve [solve(K, y - m)] over the
    learn-purpose values *)
Definition learn_solve self (ym Kiym : vector R) : Prop :=
  ∃ m K, mean_value self "learn" m ∧ cov_value self "learn" K ∧
         sub (_y self) m = Ok ym ∧ solve K ym = Ok Kiym.

(** the free hyperparameters of the mean and of the covariance function *)
Definition free_mean self : list (variable R) :=
  select_free (Fn.variables (_mean self)).

Definition free_cov self : list (variable R) :=
  select_free (Fn.variables (_cov self)).

(** the learn-purpose values of [mean] and [cov] exist, and their
    dimensions are not those of [y] *)
Definition dimensions_mismatch (y : vector R) (mean : Func R MRaw (vector R))
    (cov : Func R (X * X) (matrix R)) : Prop :=
  ∃ hm hc m K,
    data mean "learn" = Ok hm ∧ hd_value hm = Ok m ∧
    data cov "learn" = Ok hc ∧ hd_value hc = Ok K ∧
    ¬ (length m = length y ∧ nrows K = length y ∧ ncols K = length y).

(** two states of a regression core that reference the same objects *)
Definition same_objects self self' : Prop :=
  _y self = _y self' ∧ _mean self = _mean self' ∧ _cov self = _cov self'.

(** [uᵀ v], [A v], [uᵀ A u] and the trace, on arrays of matching shapes *)
Definition inner (u v : vector R) : R := vsum (zip_with fmul u v).

Definition apply (A : matrix R) (v : vector R) : vector R :=
  map (λ r, inner r v) (rows A).

Definition quadratic_form (u : vector R) (A : matrix R) : R :=
  inner u (apply A u).

Definition trace (A : matrix R) : R := vsum (diagonal A).

(** the column [j] of [A] *)
Definition column (A : matrix R) (j : nat) : vector R :=
  map (λ r, nth j r (of_int 0)) (rows A).

(** the trace of the product [A B] *)
Definition trace_of_product (A B : matrix R) : R :=
  vsum (map (λ i, inner (nth i (rows A) []) (column B i))
            (seq 0 (Nat.min (nrows A) (ncols B)))).

(** [Kinv] inverts [K] from the left: [Kinv (K v) = v] for the vectors [v]
    that [K] applies to *)
Definition left_inverse (Kinv K : matrix R) : Prop :=
  nrows Kinv = ncols K ∧
  ∀ v, length v = ncols K → apply Kinv (apply K v) = v.

(** what [solve] promises in exact arithmetic: [x] solves [K x = b], and
    [S] solves [K S = B] column by column *)
Definition solves (K : matrix R) (x b : vector R) : Prop :=
  length x = ncols K ∧ apply K x = b.

Definition solves_matrix (K S B : matrix R) : Prop :=
  nrows S = ncols K ∧ ncols S = ncols B ∧
  ∀ j, (j < ncols B)%nat → apply K (column S j) = column B j.

(** the entry of the covariance block for the derivative [dK] *)
Definition cov_entry (K : matrix R) (Kiym : vector R) (dK : matrix R) (gj : R)
    : Prop :=
  ∃ KidK, solve_matrix K dK = Ok KidK ∧
          gj = (⊖ trace KidK ⊕ quadratic_form Kiym dK) ⊘ of_int 2.

(** the posterior mean [m_p + K_lpᵀ Kiym], on arrays of matching shapes *)
Definition predict_formula (m_p : vector R) (K_lp : matrix R)
    (Kiym : vector R) : vector R :=
  zip_with fadd m_p (apply (transpose K_lp) Kiym).

(** [self'] differs from [self] at most in what the covariance function is
    bound to under [learn_predict] *)
Definition same_but_learn_predict self self' : Prop :=
  _y self' = _y self ∧ _mean self' = _mean self ∧ _dict self' = _dict self ∧
  f_variables (_cov self') = f_variables (_cov self) ∧
  f_value (_cov self') = f_value (_cov self) ∧
  f_gradient (_cov self') = f_gradient (_cov self) ∧
  delete "learn_predict" (f_bound (_cov self'))
    = delete "learn_predict" (f_bound (_cov self)).

(** the closed form of the log marginal likelihood, from [log|K|], the
    quadratic form and the number of observations *)
Definition lml_formula (logdet quad : R) (N : Z) : R :=
  ⊖ (logdet ⊕ quad ⊕ of_int N ⊗ flog (of_int 2 ⊗ fpi)) ⊘ of_int 2.
End vocabulary.

(** outcomes of a computation, from every state: it returns a value
    satisfying [P]; it raises [e]; it raises *)
Definition returns {S A} (P : A → Prop) (m : M S A) : Prop :=
  ∀ s, ∃ a s', m s = (Ok a, s') ∧ P a.

Definition raises {S A} (e : exn) (m : M S A) : Prop :=
  ∀ s, ∃ s', m s = (Raise e, s').

Definition never_returns {S A} (m : M S A) : Prop :=
  ∀ s, ∃ e s', m s = (Raise e, s').

(** a computation that leaves the state as it is, whatever its outcome *)
Definition leaves_state {S A} (m : M S A) : Prop := ∀ s, (m s).2 = s.

(** a computation that keeps a property of the state, whatever its
    outcome *)
Definition preserves {S A} (P : S → Prop) (m : M S A) : Prop :=
  ∀ s, P s → P (m s).2.


Section driver_vocabulary.
Context {Obj Heap : Type}.
Import Estimate.

(** the libraries behave: no call raises, the decompositions return pairs,
    an in-place division returns an object, truth values are defined *)
Definition well_behaved
    (ext : string → list (pyval Obj) → M Heap (pyval Obj))
    (truth : pyval Obj → M Heap bool) : Prop :=
  (∀ name args, returns (λ _, True) (ext name args)) ∧
  (∀ name args, name = "qs_decomposition" ∨ name = "qs_decomposition_from_K" →
     returns (λ v, ∃ a b, v = VTuple [a; b]) (ext name args)) ∧
  (∀ args, returns (λ v, v ≠ VNone) (ext "itruediv" args)) ∧
  (∀ x, returns (λ _, True) (truth x)).

(** libraries that return at once: a pair from the decompositions, an
    object otherwise; every object is true *)
Definition quiet_ext (name : string) (args : list (pyval unit))
    : M Heap (pyval unit) :=
  if decide (name = "qs_decomposition" ∨ name = "qs_decomposition_from_K")
  then mret (VTuple [VObj tt; VObj tt])
  else mret (VObj tt).

Definition quiet_truth (x : pyval unit) : M Heap bool := mret true.
(** no call into the libraries raises, and an in-place division returns an
    object *)
Definition libraries_return
    (ext : string → list (pyval Obj) → M Heap (pyval Obj)) : Prop :=
  (∀ name args, returns (λ _, True) (ext name args)) ∧
  (∀ args, returns (λ v, v ≠ VNone) (ext "itruediv" args)).

(** the conversion of an array returns, and changes nothing *)
Definition conversion_is_pure
    (ext : string → list (pyval Obj) → M Heap (pyval Obj)) : Prop :=
  ∀ x h, ∃ v, ext "ascontiguousarray" [x] h = (Ok v, h).


(** libraries of which every call raises [e] *)
Definition failing_ext (e : exn) (name : string) (args : list (pyval unit))
    : M Heap (pyval unit) :=
  raise e.
End driver_vocabulary.

(** * Properties *)

(** ** Running monadic code *)

Section running.
Context {S : Type}.

Lemma bind_ok {A B} (m : M S A) (f : A → M S B) s a s' :
  m s = (Ok a, s') → (m ≫= f) s = f a s'.
Proof. intros Hm. unfold mbind, M_bind. by rewrite Hm. Qed.

Lemma bind_raise {A B} (m : M S A) (f : A → M S B) s e s' :
  m s = (Raise e, s') → (m ≫= f) s = (Raise e, s').
Proof. intros Hm. unfold mbind, M_bind. by rewrite Hm. Qed.

Lemma for_each_ok {A B} (f : A → M S B) (g : A → B) l s :
  (∀ x, x ∈ l → f x s = (Ok (g x), s)) →
  for_each f l s = (Ok (map g l), s).
Proof.
  induction l as [|x l IH]; intros Hf; [done|].
  simpl. rewrite (bind_ok _ _ _ _ _ (Hf x (list_elem_of_here _ _))).
  rewrite (bind_ok _ _ _ _ _ (IH (λ z Hz, Hf z (list_elem_of_further _ _ _ Hz)))).
  done.
Qed.

Lemma bind_inv {A B} (m : M S A) (f : A → M S B) s b s' :
  (m ≫= f) s = (Ok b, s') →
  ∃ a s1, m s = (Ok a, s1) ∧ f a s1 = (Ok b, s').
Proof.
  unfold mbind, M_bind. destruct (m s) as [[a|e] s1]; [eauto|done].
Qed.

Lemma for_each_length {A B} (f : A → M S B) l s ys s' :
  for_each f l s = (Ok ys, s') → length ys = length l.
Proof.
  revert s ys s'. induction l as [|x l IH]; intros s ys s'; simpl.
  - unfold mret, M_ret. by intros [= <- _].
  - intros (y & s1 & _ & (ys' & s2 & Hl & Hr)%bind_inv)%bind_inv.
    unfold mret, M_ret in Hr. injection Hr as <- _. simpl.
    f_equal. by eapply IH.
Qed.

Lemma map_seq_lookup {A B} (F : option A → B) (l : list A) :
  map (λ i, F (l !! i)) (seq 0 (length l)) = map (λ x, F (Some x)) l.
Proof.
  induction l as [|x l IH]; [done|].
  simpl. f_equal. rewrite <- seq_shift, map_map. exact IH.
Qed.

Lemma read_eq {A} (m : M S A) s : (m s).2 = s → m s = ((m s).1, s).
Proof. intros Hs. rewrite <- Hs at 3. apply surjective_pairing. Qed.

(** a computation that leaves the state as it is, in front of a bind *)
Lemma bind_read {A B} (m : M S A) (f : A → M S B) s r :
  m s = (r, s) →
  (m ≫= f) s = match r with Ok a => f a s | Raise e => (Raise e, s) end.
Proof. intros Hm. unfold mbind, M_bind. rewrite Hm. by destruct r. Qed.
End running.

Section core.
Context {R : Type} `{!Scalar R} `{!Linalg R} {X MRaw : Type}.
Implicit Type self : RegGP R X MRaw.
Local Open Scope scalar_scope.

Lemma mean_value_run self purpose m :
  mean_value self purpose m →
  (mean_data purpose ≫= h_value) self = (Ok m, self).
Proof.
  intros (h & Hd & Hv). unfold mbind, M_bind, mean_data, h_value, lift.
  by rewrite Hd, Hv.
Qed.

Lemma cov_value_run self purpose K :
  cov_value self purpose K →
  (cov_data purpose ≫= h_value) self = (Ok K, self).
Proof.
  intros (h & Hd & Hv). unfold mbind, M_bind, cov_data, h_value, lift.
  by rewrite Hd, Hv.
Qed.

Lemma mean_value_inj self purpose m m' :
  mean_value self purpose m → mean_value self purpose m' → m = m'.
Proof. intros (h & Hd & Hv) (h' & Hd' & Hv'). congruence. Qed.

Lemma cov_value_inj self purpose K K' :
  cov_value self purpose K → cov_value self purpose K' → K = K'.
Proof. intros (h & Hd & Hv) (h' & Hd' & Hv'). congruence. Qed.

Lemma GP_Kim_run self ym Kiym :
  learn_solve self ym Kiym → GP._Kim self = (Ok Kiym, self).
Proof.
  intros (m & K & Hm & HK & Hsub & Hsolve). unfold GP._Kim.
  rewrite (bind_ok _ _ _ _ _ (mean_value_run _ _ _ Hm)).
  rewrite (bind_ok _ _ _ _ _ (cov_value_run _ _ _ HK)).
  unfold mbind, M_bind, gets, lift. by rewrite Hsub, Hsolve.
Qed.

Lemma Inference_Kim_run self ym Kiym :
  learn_solve self ym Kiym → Inference._Kim self = (Ok Kiym, self).
Proof.
  intros (m & K & Hm & HK & Hsub & Hsolve). unfold Inference._Kim.
  rewrite (bind_ok _ _ _ _ _ (mean_value_run _ _ _ Hm)).
  rewrite (bind_ok _ _ _ _ _ (cov_value_run _ _ _ HK)).
  unfold mbind, M_bind, gets, lift. by rewrite Hsub, Hsolve.
Qed.

Lemma dot_inner (u v : vector R) :
  length u = length v → dot u v = Ok (inner u v).
Proof. intros Hl. unfold dot. by rewrite decide_True. Qed.

(** *** The solves and the inverse, in exact arithmetic *)

Lemma solves_inverse (Kinv K : matrix R) (x b : vector R) :
  left_inverse Kinv K → solves K x b → x = apply Kinv b.
Proof. intros [_ Hinv] [Hlen <-]. symmetry. by apply Hinv. Qed.

Lemma quadratic_form_inverse (Kinv K : matrix R) (x b : vector R) :
  left_inverse Kinv K → solves K x b → inner b x = quadratic_form b Kinv.
Proof.
  intros Hinv Hx. unfold quadratic_form.
  by rewrite <- (solves_inverse _ _ _ _ Hinv Hx).
Qed.

Lemma entry_column (A : matrix R) (i j : nat) :
  entry A i j = nth i (column A j) (of_int 0).
Proof.
  unfold entry, column.
  rewrite <- (map_nth (λ r : list R, nth j r (of_int 0)) (rows A) [] i).
  f_equal. by destruct j.
Qed.

Lemma column_length (A : matrix R) (j : nat) : length (column A j) = nrows A.
Proof. unfold column, nrows. by rewrite length_map. Qed.

Lemma trace_inverse (Kinv K KidK dK : matrix R) :
  left_inverse Kinv K → solves_matrix K KidK dK →
  trace KidK = trace_of_product Kinv dK.
Proof.
  intros Hinv (Hr & Hc & Hcol). unfold trace, trace_of_product, diagonal.
  destruct Hinv as [Hrinv Hinv]. rewrite Hr, Hc, Hrinv. f_equal.
  apply map_ext_in. intros i [_ Hi]%in_seq. simpl in Hi.
  rewrite entry_column.
  rewrite <- (Hinv (column KidK i)) by (by rewrite column_length).
  rewrite Hcol by lia. unfold apply.
  exact (map_nth (λ r : list R, inner r (column dK i)) (rows Kinv) [] i).
Qed.

Lemma GP_lml_run self m K ym Kiym s logdet :
  mean_value self "learn" m →
  cov_value self "learn" K →
  sub (_y self) m = Ok ym →
  solve K ym = Ok Kiym →
  slogdet K = Ok (s, logdet) →
  GP.lml self
    = (if feqb s (of_int 1)
       then match dot ym Kiym with
            | Ok q => Ok (lml_formula logdet q (len (_y self)))
            | Raise e => Raise e
            end
       else Raise AssertionError, self).
Proof.
  intros Hm HK Hsub Hsolve Hdet.
  assert (learn_solve self ym Kiym) as HKim by (exists m, K; auto).
  unfold GP.lml.
  rewrite (bind_ok (gets _y) _ self (_y self) self eq_refl).
  rewrite (bind_ok _ _ _ _ _ (GP_Kim_run _ _ _ HKim)).
  rewrite (bind_ok _ _ _ _ _ (mean_value_run _ _ _ Hm)).
  unfold lift at 1. rewrite (bind_ok _ _ _ _ _ (f_equal (λ r, (r, self)) Hsub)).
  rewrite (bind_ok _ _ _ _ _ (cov_value_run _ _ _ HK)).
  unfold mbind, M_bind, lift, assert, raise. rewrite Hdet.
  destruct (feqb s (of_int 1)); [|done]. simpl. by destruct (dot ym Kiym).
Qed.

Lemma Inference_lml_run self m K ym Kiym s logdet :
  mean_value self "learn" m →
  cov_value self "learn" K →
  sub (_y self) m = Ok ym →
  solve K ym = Ok Kiym →
  slogdet K = Ok (s, logdet) →
  Inference.lml self
    = (if feqb s (of_int 1)
       then match dot ym Kiym with
            | Ok q => Ok (lml_formula logdet q (len (_y self)))
            | Raise e => Raise e
            end
       else Raise AssertionError, self).
Proof.
  intros Hm HK Hsub Hsolve Hdet.
  assert (learn_solve self ym Kiym) as HKim by (exists m, K; auto).
  unfold Inference.lml.
  rewrite (bind_ok (gets _y) _ self (_y self) self eq_refl).
  rewrite (bind_ok _ _ _ _ _ (Inference_Kim_run _ _ _ HKim)).
  rewrite (bind_ok _ _ _ _ _ (mean_value_run _ _ _ Hm)).
  unfold lift at 1. rewrite (bind_ok _ _ _ _ _ (f_equal (λ r, (r, self)) Hsub)).
  rewrite (bind_ok _ _ _ _ _ (cov_value_run _ _ _ HK)).
  unfold mbind, M_bind, lift, assert, raise. rewrite Hdet.
  destruct (feqb s (of_int 1)); [|done]. simpl. by destruct (dot ym Kiym).
Qed.

(** C1. When the learn-purpose covariance [K] has sign [+1] and
    log-determinant [logdet] and the learn-purpose mean is [m], [lml()]
    returns [-(logdet + (y-m)ᵀ Kiym + N log(2π)) / 2], where [N = len(y)]
    and [Kiym] is the result of the one linear solve [solve(K, y - m)];
    so in [lim/gp] as in [lim/inference], and the objects are left as they
    were.  In exact arithmetic, where [Kiym] solves [K x = y - m], the
    quadratic form [(y-m)ᵀ Kiym] is [(y-m)ᵀ K⁻¹ (y-m)]. *)
Theorem lml_closed_form self m K ym Kiym s logdet :
  mean_value self "learn" m →
  cov_value self "learn" K →
  sub (_y self) m = Ok ym →
  solve K ym = Ok Kiym →
  length Kiym = length ym →
  slogdet K = Ok (s, logdet) →
  feqb s (of_int 1) = true →
  GP.lml self
    = (Ok (lml_formula logdet (inner ym Kiym) (len (_y self))), self) ∧
  Inference.lml self
    = (Ok (lml_formula logdet (inner ym Kiym) (len (_y self))), self) ∧
  (∀ Kinv, left_inverse Kinv K → solves K Kiym ym →
     inner ym Kiym = quadratic_form ym Kinv).
Proof.
  intros Hm HK Hsub Hsolve Hlen Hdet Hs.
  rewrite (GP_lml_run _ _ _ _ _ _ _ Hm HK Hsub Hsolve Hdet).
  rewrite (Inference_lml_run _ _ _ _ _ _ _ Hm HK Hsub Hsolve Hdet).
  rewrite Hs, (dot_inner ym Kiym (eq_sym Hlen)). repeat split.
  intros Kinv. apply quadratic_form_inverse.
Qed.

(** reads leave the objects as they were *)
Ltac run_reads :=
  repeat first
    [ progress unfold mbind, M_bind, mean_data, cov_data, h_value,
        h_gradient, lift, gets, assert, raise, mret, M_ret in *
    | case_match; simplify_eq/= ];
  eauto; try congruence.

Lemma mean_read_state self purpose :
  ((mean_data purpose ≫= h_value) self).2 = self.
Proof. run_reads. Qed.

Lemma cov_read_state self purpose :
  ((cov_data purpose ≫= h_value) self).2 = self.
Proof. run_reads. Qed.

Lemma GP_Kim_state self : (GP._Kim self).2 = self.
Proof. unfold GP._Kim. run_reads. Qed.

Lemma Inference_Kim_state self : (Inference._Kim self).2 = self.
Proof. unfold Inference._Kim. run_reads. Qed.

Lemma GP_lml_state self : (GP.lml self).2 = self.
Proof.
  unfold GP.lml. rewrite (bind_ok (gets _y) _ self (_y self) self eq_refl).
  pose proof (GP_Kim_state self) as HK. unfold mbind at 1, M_bind at 1.
  destruct (GP._Kim self) as [[Kiym|e] s]; simpl in HK; subst s; [|done].
  run_reads.
Qed.

Lemma Inference_lml_state self : (Inference.lml self).2 = self.
Proof.
  unfold Inference.lml.
  rewrite (bind_ok (gets _y) _ self (_y self) self eq_refl).
  pose proof (Inference_Kim_state self) as HK. unfold mbind at 1, M_bind at 1.
  destruct (Inference._Kim self) as [[Kiym|e] s]; simpl in HK; subst s; [|done].
  run_reads.
Qed.

(** C3. With [(s, logdet)] the sign and log-determinant of the
    learn-purpose covariance: when [s] is not [1], [lml()] raises (the
    failed assertion, once the linear solve has returned) and returns no
    value; when [s] is [1] and the linear solve has returned a vector of
    the length of [y - m], [lml()] returns a value. *)
Theorem lml_sign_check self K s logdet :
  cov_value self "learn" K →
  slogdet K = Ok (s, logdet) →
  (feqb s (of_int 1) = false →
     (∃ e, GP.lml self = (Raise e, self)) ∧
     (∃ e, Inference.lml self = (Raise e, self)) ∧
     (∀ ym Kiym, learn_solve self ym Kiym →
        GP.lml self = (Raise AssertionError, self) ∧
        Inference.lml self = (Raise AssertionError, self))) ∧
  (feqb s (of_int 1) = true →
     ∀ ym Kiym, learn_solve self ym Kiym → length Kiym = length ym →
       ∃ v, GP.lml self = (Ok v, self) ∧ Inference.lml self = (Ok v, self)).
Proof.
  intros HK Hdet. split.
  - intros Hs. split; [|split].
    + pose proof (GP_lml_state self) as Hst.
      destruct (GP.lml self) as [[v|e] s'] eqn:Hrun; simpl in Hst; subst s';
        [exfalso|by eexists].
      revert Hrun. unfold GP.lml.
      rewrite (bind_ok (gets _y) _ self (_y self) self eq_refl).
      pose proof (GP_Kim_state self) as HKs. unfold mbind at 1, M_bind at 1.
      destruct (GP._Kim self) as [[Kiym|e] s']; simpl in HKs; subst s'; [|done].
      unfold mbind at 1, M_bind at 1.
      pose proof (mean_read_state self "learn") as Hms.
      destruct ((mean_data "learn" ≫= h_value) self) as [[m|e] s'];
        simpl in Hms; subst s'; [|done].
      unfold mbind at 1, M_bind at 1, lift at 1.
      destruct (sub (_y self) m) as [ym|e]; [|done].
      rewrite (bind_ok _ _ _ _ _ (cov_value_run _ _ _ HK)).
      unfold mbind, M_bind, lift, assert, raise. by rewrite Hdet, Hs.
    + pose proof (Inference_lml_state self) as Hst.
      destruct (Inference.lml self) as [[v|e] s'] eqn:Hrun; simpl in Hst;
        subst s'; [exfalso|by eexists].
      revert Hrun. unfold Inference.lml.
      rewrite (bind_ok (gets _y) _ self (_y self) self eq_refl).
      pose proof (Inference_Kim_state self) as HKs.
      unfold mbind at 1, M_bind at 1.
      destruct (Inference._Kim self) as [[Kiym|e] s']; simpl in HKs; subst s';
        [|done].
      unfold mbind at 1, M_bind at 1.
      pose proof (mean_read_state self "learn") as Hms.
      destruct ((mean_data "learn" ≫= h_value) self) as [[m|e] s'];
        simpl in Hms; subst s'; [|done].
      unfold mbind at 1, M_bind at 1, lift at 1.
      destruct (sub (_y self) m) as [ym|e]; [|done].
      rewrite (bind_ok _ _ _ _ _ (cov_value_run _ _ _ HK)).
      unfold mbind, M_bind, lift, assert, raise. by rewrite Hdet, Hs.
    + intros ym Kiym HKim.
      pose proof HKim as (m & K' & Hm & HK' & Hsub & Hsolve).
      rewrite <- (cov_value_inj _ _ _ _ HK HK') in Hsolve.
      rewrite (GP_lml_run _ _ _ _ _ _ _ Hm HK Hsub Hsolve Hdet).
      rewrite (Inference_lml_run _ _ _ _ _ _ _ Hm HK Hsub Hsolve Hdet).
      by rewrite Hs.
  - intros Hs ym Kiym HKim Hlen.
    pose proof HKim as (m & K' & Hm & HK' & Hsub & Hsolve).
    rewrite <- (cov_value_inj _ _ _ _ HK HK') in Hsolve.
    rewrite (GP_lml_run _ _ _ _ _ _ _ Hm HK Hsub Hsolve Hdet).
    rewrite (Inference_lml_run _ _ _ _ _ _ _ Hm HK Hsub Hsolve Hdet).
    rewrite Hs, (dot_inner ym Kiym (eq_sym Hlen)). by eexists.
Qed.
Lemma GP_lml_same_objects self self' :
  same_objects self self' → (GP.lml self).1 = (GP.lml self').1.
Proof.
  destruct self, self'. intros (?&?&?). simplify_eq/=.
  unfold GP.lml, GP._Kim. run_reads.
Qed.

Lemma GP_variables_run self :
  GP.variables self
    = (Ok (merge_variables [("mean", free_mean self); ("cov", free_cov self)]),
       self).
Proof. done. Qed.

Lemma Inference_variables_run self :
  Inference.variables self
    = (Ok (merge_variables [("mean", free_mean self); ("cov", free_cov self)]),
       self).
Proof. done. Qed.

Lemma merge_variables_length (v0 v1 : list (variable R)) :
  length (merge_variables [("mean", v0); ("cov", v1)])
    = (length v0 + length v1)%nat.
Proof.
  unfold merge_variables. simpl. rewrite app_nil_r, length_app.
  by rewrite !length_map.
Qed.

(** C7, as amended. Construction never raises: it stores the three
    references and computes nothing, so that no mismatch of dimensions is
    detected by it.  A mismatch between the lengths of [y] and of the
    learn-purpose mean, neither of them of length one, is raised as a
    [ValueError] by the first call of [lml()]. *)
Theorem init_stores_references (y : vector R) (mean : Func R MRaw (vector R))
    (cov : Func R (X * X) (matrix R)) :
  let self := {| _y := y; _cov := cov; _mean := mean; _dict := ∅ |} in
  GP.__init__ y mean cov = Ok self ∧
  Inference.__init__ y mean cov = Ok self ∧
  (∀ m K, mean_value self "learn" m → cov_value self "learn" K →
     length m ≠ length y → length m ≠ 1%nat → length y ≠ 1%nat →
     GP.lml self = (Raise ValueError, self) ∧
     Inference.lml self = (Raise ValueError, self)).
Proof.
  intros self. split; [done|]. split; [done|].
  intros m K Hm HK Hne Hm1 Hy1.
  assert (sub y m = Raise ValueError) as Hsub.
  { unfold sub, broadcast. rewrite decide_False by done.
    destruct y as [|? [|? ?]], m as [|? [|? ?]]; done. }
  split.
  - assert (GP._Kim self = (Raise ValueError, self)) as HKim.
    { unfold GP._Kim.
      rewrite (bind_ok _ _ _ _ _ (mean_value_run _ _ _ Hm)).
      rewrite (bind_ok _ _ _ _ _ (cov_value_run _ _ _ HK)).
      unfold mbind, M_bind, gets, lift. simpl. by rewrite Hsub. }
    unfold GP.lml.
    rewrite (bind_ok (gets _y) _ self (_y self) self eq_refl).
    by rewrite (bind_raise _ _ _ _ _ HKim).
  - assert (Inference._Kim self = (Raise ValueError, self)) as HKim.
    { unfold Inference._Kim.
      rewrite (bind_ok _ _ _ _ _ (mean_value_run _ _ _ Hm)).
      rewrite (bind_ok _ _ _ _ _ (cov_value_run _ _ _ HK)).
      unfold mbind, M_bind, gets, lift. simpl. by rewrite Hsub. }
    unfold Inference.lml.
    rewrite (bind_ok (gets _y) _ self (_y self) self eq_refl).
    by rewrite (bind_raise _ _ _ _ _ HKim).
Qed.

(** the two classes have the same text for these methods *)
Lemma Inference_Kim_eq : @Inference._Kim R _ _ X MRaw = GP._Kim.
Proof. reflexivity. Qed.


Lemma Inference_lml_gradient_mean_eq :
  @Inference._lml_gradient_mean R _ _ X MRaw = GP._lml_gradient_mean.
Proof. reflexivity. Qed.

Lemma Inference_lml_gradient_cov_eq :
  @Inference._lml_gradient_cov R _ _ X MRaw = GP._lml_gradient_cov.
Proof. reflexivity. Qed.

Lemma Inference_lml_gradient_eq :
  @Inference.lml_gradient R _ _ X MRaw = GP.lml_gradient.
Proof. reflexivity. Qed.


(** the branches of [learn()], by the number of free hyperparameters *)
Lemma learn_cases (maximize_scalar maximize_array : Optimizer R X MRaw) self :
  let n := (length (free_mean self) + length (free_cov self))%nat in
  let self' := setattr "gradient" (setattr "value" self) in
  (n = 0%nat →
     GP.learn maximize_scalar maximize_array self = (Ok tt, self') ∧
     Inference.learn maximize_scalar maximize_array self = (Ok tt, self)) ∧
  (n = 1%nat →
     GP.learn maximize_scalar maximize_array self
       = maximize_scalar GP.self_ self' ∧
     Inference.learn maximize_scalar maximize_array self
       = maximize_scalar Inference.self_ self) ∧
  ((2 ≤ n)%nat →
     GP.learn maximize_scalar maximize_array self
       = maximize_array GP.self_ self' ∧
     Inference.learn maximize_scalar maximize_array self
       = maximize_array Inference.self_ self).
Proof.
  intros n self'.
  assert (∀ A (k : list (string * variable R) → M _ A),
            (GP.variables ≫= k) self'
            = k (merge_variables [("mean", free_mean self);
                                  ("cov", free_cov self)]) self') as HG
    by (intros; by rewrite (bind_ok _ _ _ _ _ (GP_variables_run self'))).
  assert (∀ A (k : list (string * variable R) → M _ A),
            (Inference.variables ≫= k) self
            = k (merge_variables [("mean", free_mean self);
                                  ("cov", free_cov self)]) self) as HI
    by (intros; by rewrite (bind_ok _ _ _ _ _ (Inference_variables_run self))).
  assert (GP.learn maximize_scalar maximize_array self
          = (GP.variables ≫= λ vs,
               if decide (length vs = 0%nat) then mret tt
               else GP.variables ≫= λ vs',
                 if decide (length vs' = 1%nat) then maximize_scalar GP.self_
                 else maximize_array GP.self_) self') as -> by done.
  unfold Inference.learn. rewrite HG, HI, merge_variables_length.
  fold n. split; [|split]; intros Hn; repeat split.
  - by rewrite decide_True.
  - by rewrite decide_True.
  - rewrite decide_False by lia. rewrite HG, merge_variables_length. fold n.
    by rewrite decide_True.
  - rewrite decide_False by lia. rewrite HI, merge_variables_length. fold n.
    by rewrite decide_True.
  - rewrite decide_False by lia. rewrite HG, merge_variables_length. fold n.
    by rewrite decide_False by lia.
  - rewrite decide_False by lia. rewrite HI, merge_variables_length. fold n.
    by rewrite decide_False by lia.
Qed.

(** C6. [learn()] dispatches on the number [n] of free hyperparameters of
    the mean and covariance functions together.  With [n = 0] it calls no
    optimizer: it returns at once, whatever the optimizers are, and the
    value of [lml()] is what it was (in [lim/gp] the attributes [value] and
    [gradient] have been assigned to the instance).  With [n = 1] it is the
    call of the scalar maximizer on [self], with [n ≥ 2] the call of the
    multivariate maximizer on [self]. *)
Theorem learn_dispatch (maximize_scalar maximize_array : Optimizer R X MRaw) self :
  let n := (length (free_mean self) + length (free_cov self))%nat in
  let self' := setattr "gradient" (setattr "value" self) in
  (n = 0%nat →
     GP.learn maximize_scalar maximize_array self = (Ok tt, self') ∧
     Inference.learn maximize_scalar maximize_array self = (Ok tt, self) ∧
     (GP.lml self').1 = (GP.lml self).1) ∧
  (n = 1%nat →
     GP.learn maximize_scalar maximize_array self
       = maximize_scalar GP.self_ self' ∧
     Inference.learn maximize_scalar maximize_array self
       = maximize_scalar Inference.self_ self) ∧
  ((2 ≤ n)%nat →
     GP.learn maximize_scalar maximize_array self
       = maximize_array GP.self_ self' ∧
     Inference.learn maximize_scalar maximize_array self
       = maximize_array Inference.self_ self).
Proof.
  intros n self'.
  destruct (learn_cases maximize_scalar maximize_array self) as (H0 & H1 & H2).
  split; [|by split].
  intros Hn. destruct (H0 Hn) as [HG HI]. repeat split; [done|done|].
  symmetry. apply GP_lml_same_objects. by repeat split.
Qed.
Lemma mean_gradient_run self purpose dMs :
  mean_gradient self purpose dMs →
  (mean_data purpose ≫= h_gradient) self = (Ok dMs, self).
Proof.
  intros (h & Hd & Hv). unfold mbind, M_bind, mean_data, h_gradient, lift.
  by rewrite Hd, Hv.
Qed.

Lemma cov_gradient_run self purpose dKs :
  cov_gradient self purpose dKs →
  (cov_data purpose ≫= h_gradient) self = (Ok dKs, self).
Proof.
  intros (h & Hd & Hv). unfold mbind, M_bind, cov_data, h_gradient, lift.
  by rewrite Hd, Hv.
Qed.

Lemma matvec_apply (A : matrix R) (v : vector R) :
  ncols A = length v → matvec A v = Ok (apply A v).
Proof. intros Hl. unfold matvec. by rewrite decide_True. Qed.

Lemma apply_length (A : matrix R) (v : vector R) :
  length (apply A v) = nrows A.
Proof. unfold apply, nrows. by rewrite length_map. Qed.

(** the mean block: one entry [dM · Kiym] per derivative of the mean *)
Lemma GP_lml_gradient_mean_run self ym Kiym dMs :
  learn_solve self ym Kiym →
  mean_gradient self "learn" dMs →
  length dMs = length (free_mean self) →
  (∀ dM, dM ∈ dMs → length dM = length Kiym) →
  GP._lml_gradient_mean self = (Ok (map (λ dM, inner dM Kiym) dMs), self).
Proof.
  intros HKim HdM Hlen Hshape. unfold GP._lml_gradient_mean.
  rewrite (bind_ok (gets _) _ self (free_mean self) self eq_refl).
  rewrite (bind_ok _ _ _ _ _ (GP_Kim_run _ _ _ HKim)).
  rewrite <- Hlen.
  rewrite (for_each_ok _
    (λ i, match dMs !! i with
          | Some dM => inner dM Kiym
          | None => of_int 0
          end)).
  - by rewrite (map_seq_lookup
      (λ o, match o with Some dM => inner dM Kiym | None => of_int 0 end)).
  - intros i [_ Hi]%elem_of_seq. simpl in Hi.
    destruct (lookup_lt_is_Some_2 dMs i Hi) as [dM HdMi].
    rewrite (bind_ok _ _ _ _ _ (mean_gradient_run _ _ _ HdM)).
    unfold mbind, M_bind, lift, getitem. rewrite HdMi.
    rewrite dot_inner; [done|].
    apply Hshape. by eapply list_elem_of_lookup_2.
Qed.

Lemma GP_lml_gradient_cov_run self K ym Kiym dKs :
  cov_value self "learn" K →
  learn_solve self ym Kiym →
  cov_gradient self "learn" dKs →
  length dKs = length (free_cov self) →
  (∀ dK, dK ∈ dKs →
     nrows dK = length Kiym ∧ ncols dK = length Kiym ∧
     ∃ KidK, solve_matrix K dK = Ok KidK) →
  ∃ g, GP._lml_gradient_cov self = (Ok g, self) ∧
       Forall2 (cov_entry K Kiym) dKs g.
Proof.
  intros HK HKim HdK Hlen Hshape. unfold GP._lml_gradient_cov.
  rewrite (bind_ok (gets _) _ self (free_cov self) self eq_refl).
  rewrite (bind_ok _ _ _ _ _ (cov_value_run _ _ _ HK)).
  rewrite (bind_ok _ _ _ _ _ (GP_Kim_run _ _ _ HKim)).
  rewrite <- Hlen.
  set (F := λ o : option (matrix R),
         match o with
         | Some dK => match solve_matrix K dK with
                      | Ok KidK => ⊖ trace KidK ⊕ quadratic_form Kiym dK
                      | Raise _ => of_int 0
                      end
         | None => of_int 0
         end).
  match goal with
  | |- context [for_each ?f _] =>
      assert (for_each f (seq 0 (length dKs)) self
              = (Ok (map (λ i, F (dKs !! i)) (seq 0 (length dKs))), self))
        as Hloop
  end.
  { apply for_each_ok. intros i [_ Hi]%elem_of_seq. simpl in Hi.
    destruct (lookup_lt_is_Some_2 dKs i Hi) as [dK HdKi].
    destruct (Hshape dK) as (Hr & Hc & KidK & HS);
      [by eapply list_elem_of_lookup_2|].
    rewrite (bind_ok _ _ _ _ _ (cov_gradient_run _ _ _ HdK)).
    unfold mbind, M_bind, lift, getitem, mret, M_ret. rewrite HdKi, HS.
    rewrite (matvec_apply dK Kiym Hc).
    rewrite dot_inner by (by rewrite apply_length).
    unfold F. simpl. by rewrite HS. }
  rewrite (bind_ok _ _ _ _ _ Hloop).
  eexists. split; [reflexivity|].
  rewrite (map_seq_lookup F), map_map.
  apply Forall2_fmap_r, Forall2_same_length_lookup_2; [done|].
  intros i dK dK' HdKi HdKi'. simplify_eq.
  destruct (Hshape dK) as (_ & _ & KidK & HS);
    [by eapply list_elem_of_lookup_2|].
  exists KidK. split; [done|]. unfold F. by rewrite HS.
Qed.
Lemma GP_lml_gradient_run self gc gm :
  GP._lml_gradient_cov self = (Ok gc, self) →
  GP._lml_gradient_mean self = (Ok gm, self) →
  GP.lml_gradient self = (Ok (gc ++ gm)%list, self).
Proof.
  intros Hc Hm. unfold GP.lml_gradient.
  rewrite (bind_ok _ _ _ _ _ Hc). by rewrite (bind_ok _ _ _ _ _ Hm).
Qed.

(** C4. The covariance block of [lml_gradient()] has, for the [j]-th
    derivative [dK] of the learn-purpose covariance, the entry
    [(- trace(KidK) + Kiymᵀ dK Kiym) / 2], where [KidK] is the result of
    [solve(K, dK)] and the trace is the sum of its diagonal; the entries
    stand at the same positions [j] in the result of [lml_gradient()].  In
    exact arithmetic, where [KidK] solves [K S = dK], the trace is that of
    [K⁻¹ dK]. *)
Theorem lml_gradient_cov_entries self K ym Kiym dKs :
  cov_value self "learn" K →
  learn_solve self ym Kiym →
  cov_gradient self "learn" dKs →
  length dKs = length (free_cov self) →
  (∀ dK, dK ∈ dKs →
     nrows dK = length Kiym ∧ ncols dK = length Kiym ∧
     ∃ KidK, solve_matrix K dK = Ok KidK) →
  ∃ g, GP._lml_gradient_cov self = (Ok g, self) ∧
       Inference._lml_gradient_cov self = (Ok g, self) ∧
       Forall2 (cov_entry K Kiym) dKs g ∧
       (∀ gm, GP._lml_gradient_mean self = (Ok gm, self) →
          ∃ gl, GP.lml_gradient self = (Ok gl, self) ∧
                Inference.lml_gradient self = (Ok gl, self) ∧
                ∀ j, (j < length dKs)%nat → gl !! j = g !! j) ∧
       (∀ Kinv, left_inverse Kinv K →
          Forall2 (λ dK gj, ∀ KidK,
                     solve_matrix K dK = Ok KidK → solves_matrix K KidK dK →
                     gj = (⊖ trace_of_product Kinv dK
                           ⊕ quadratic_form Kiym dK) ⊘ of_int 2) dKs g).
Proof.
  intros HK HKim HdK Hlen Hshape.
  destruct (GP_lml_gradient_cov_run self K ym Kiym dKs HK HKim HdK Hlen Hshape)
    as (g & Hrun & Hg).
  exists g. rewrite Inference_lml_gradient_cov_eq.
  split; [done|]. split; [done|]. split; [done|]. split.
  - intros gm Hgm. exists (g ++ gm)%list.
    rewrite Inference_lml_gradient_eq.
    rewrite (GP_lml_gradient_run _ _ _ Hrun Hgm). repeat split.
    intros j Hj. apply lookup_app_l. by rewrite <- (Forall2_length _ _ _ Hg).
  - intros Kinv Hinv. eapply Forall2_impl; [exact Hg|].
    intros dK gj (KidK & HS & ->) KidK' HS' Hsolves.
    assert (KidK' = KidK) as -> by congruence.
    by rewrite (trace_inverse _ _ _ _ Hinv Hsolves).
Qed.

(** C2, as amended. [lml_gradient()] returns the covariance block first,
    followed by the mean block: the entries for the derivatives of the
    covariance in their order, one per free covariance hyperparameter, then
    the entries [dM · Kiym] for the derivatives of the mean in their order,
    one per free mean hyperparameter. *)
Theorem lml_gradient_blocks self K ym Kiym dKs dMs :
  cov_value self "learn" K →
  learn_solve self ym Kiym →
  cov_gradient self "learn" dKs →
  length dKs = length (free_cov self) →
  (∀ dK, dK ∈ dKs →
     nrows dK = length Kiym ∧ ncols dK = length Kiym ∧
     ∃ KidK, solve_matrix K dK = Ok KidK) →
  mean_gradient self "learn" dMs →
  length dMs = length (free_mean self) →
  (∀ dM, dM ∈ dMs → length dM = length Kiym) →
  ∃ gc gm,
    GP.lml_gradient self = (Ok (gc ++ gm)%list, self) ∧
    Inference.lml_gradient self = (Ok (gc ++ gm)%list, self) ∧
    Forall2 (cov_entry K Kiym) dKs gc ∧
    gm = map (λ dM, inner dM Kiym) dMs ∧
    length gc = length (free_cov self) ∧
    length gm = length (free_mean self).
Proof.
  intros HK HKim HdK HlenK HshapeK HdM HlenM HshapeM.
  destruct (GP_lml_gradient_cov_run self K ym Kiym dKs HK HKim HdK HlenK HshapeK)
    as (gc & Hc & Hgc).
  pose proof (GP_lml_gradient_mean_run self ym Kiym dMs HKim HdM HlenM HshapeM)
    as Hm.
  exists gc, (map (λ dM, inner dM Kiym) dMs).
  rewrite Inference_lml_gradient_eq, (GP_lml_gradient_run _ _ _ Hc Hm).
  repeat split; try done.
  - by rewrite <- (Forall2_length _ _ _ Hgc).
  - by rewrite length_map.
Qed.

Lemma add_zip (u v : vector R) :
  length u = length v → add u v = Ok (zip_with fadd u v).
Proof. intros Hl. unfold add, broadcast. by rewrite decide_True. Qed.

Lemma transpose_nrows (A : matrix R) : nrows (transpose A) = ncols A.
Proof. unfold nrows, transpose. simpl. by rewrite length_map, length_seq. Qed.

Lemma predict_formula_length (m_p : vector R) K_lp Kiym :
  ncols K_lp = length m_p →
  length (predict_formula m_p K_lp Kiym) = length m_p.
Proof.
  intros Hc. unfold predict_formula.
  rewrite length_zip_with, apply_length, transpose_nrows. lia.
Qed.

(** the tail of either [predict()], from the read of the [learn_predict]
    value on *)
Lemma predict_tail_run self (m_p Kiym : vector R) K_lp :
  cov_value self "learn_predict" K_lp →
  nrows K_lp = length Kiym →
  ncols K_lp = length m_p →
  ∀ A (k : vector R → M _ A),
    (K_lp' ← cov_data "learn_predict" ≫= h_value;
     t ← lift (matvec (transpose K_lp') Kiym);
     est_mean ← lift (add m_p t);
     k est_mean) self
    = k (predict_formula m_p K_lp Kiym) self.
Proof.
  intros HK Hr Hc A k.
  rewrite (bind_ok _ _ _ _ _ (cov_value_run _ _ _ HK)).
  unfold mbind, M_bind, lift.
  rewrite matvec_apply by done.
  rewrite add_zip by (by rewrite apply_length, transpose_nrows).
  done.
Qed.

Lemma cov_value_data self purpose K :
  cov_value self purpose K → ∃ h, cov_data purpose self = (Ok h, self).
Proof. intros (h & Hd & _). exists h. unfold cov_data. by rewrite Hd. Qed.

(** [predict()] of [lim/gp], once its reads have returned: the call of
    [set_data] raises *)
Lemma GP_predict_set_data self m_p ym Kiym K_pp :
  mean_value self "predict" m_p →
  learn_solve self ym Kiym →
  cov_value self "predict" K_pp →
  GP.predict self = (Raise TypeError, self).
Proof.
  intros Hmp HKim HKpp.
  destruct HKim as (m & K & Hm & HK & Hsub & Hsolve).
  destruct (cov_value_data _ _ _ HK) as [hl Hhl].
  destruct (cov_value_data _ _ _ HKpp) as [hp Hhp].
  unfold GP.predict.
  rewrite (bind_ok _ _ _ _ _ (mean_value_run _ _ _ Hmp)).
  rewrite (bind_ok _ _ _ _ _
             (GP_Kim_run _ _ _ (ex_intro _ m (ex_intro _ K
                (conj Hm (conj HK (conj Hsub Hsolve))))))).
  rewrite (bind_ok _ _ _ _ _ (cov_value_run _ _ _ HKpp)).
  by rewrite (bind_ok _ _ _ _ _ Hhl), (bind_ok _ _ _ _ _ Hhp).
Qed.

(** C5. With [predict] and [learn_predict] data bound and the shapes
    matching, [predict()] of [lim/inference] returns [m_p + K_lpᵀ Kiym]:
    [m_p] the predict-purpose mean, [K_lp] the [learn_predict]-purpose
    covariance, [Kiym] the learn-purpose solve; the result has the length
    of [m_p].  [predict()] of [lim/gp] returns nothing on the same
    bindings: its three reads return, and its call
    [cov.set_data(a, b, purpose='learn_predict')] raises [TypeError],
    with the objects as they were. *)
Theorem predict_closed_form self m_p ym Kiym K_pp :
  mean_value self "predict" m_p →
  learn_solve self ym Kiym →
  cov_value self "predict" K_pp →
  (∀ K_lp, cov_value self "learn_predict" K_lp →
     nrows K_lp = length Kiym → ncols K_lp = length m_p →
     Inference.predict self = (Ok (predict_formula m_p K_lp Kiym), self) ∧
     length (predict_formula m_p K_lp Kiym) = length m_p) ∧
  GP.predict self = (Raise TypeError, self).
Proof.
  intros Hmp HKim HKpp. split.
  - intros K_lp HKlp Hr Hc. split; [|by apply predict_formula_length].
    unfold Inference.predict.
    rewrite (bind_ok _ _ _ _ _ (mean_value_run _ _ _ Hmp)).
    rewrite (bind_ok _ _ _ _ _ (Inference_Kim_run _ _ _ HKim)).
    rewrite (bind_ok _ _ _ _ _ (cov_value_run _ _ _ HKpp)).
    by rewrite (predict_tail_run self m_p Kiym K_lp HKlp Hr Hc).
  - exact (GP_predict_set_data self m_p ym Kiym K_pp Hmp HKim HKpp).
Qed.

(** *** [predict()] and the state it leaves *)

Lemma same_but_refl self : same_but_learn_predict self self.
Proof. by repeat split. Qed.

Lemma cov_data_state self purpose : (cov_data purpose self).2 = self.
Proof. done. Qed.

Lemma GP_predict_leaves self : (GP.predict self).2 = self.
Proof.
  unfold GP.predict.
  rewrite (bind_read _ _ self _ (read_eq _ _ (mean_read_state self "predict"))).
  destruct ((mean_data "predict" ≫= h_value) self).1 as [m_p|e]; [|done].
  rewrite (bind_read _ _ self _ (read_eq _ _ (GP_Kim_state self))).
  destruct (GP._Kim self).1 as [Kiym|e]; [|done].
  rewrite (bind_read _ _ self _ (read_eq _ _ (cov_read_state self "predict"))).
  destruct ((cov_data "predict" ≫= h_value) self).1 as [K_pp|e]; [|done].
  rewrite (bind_read _ _ self _ (read_eq _ _ (cov_data_state self "learn"))).
  destruct (cov_data "learn" self).1 as [hl|e]; [|done].
  rewrite (bind_read _ _ self _ (read_eq _ _ (cov_data_state self "predict"))).
  by destruct (cov_data "predict" self).1 as [hp|e].
Qed.

Lemma Inference_predict_state self : (Inference.predict self).2 = self.
Proof.
  unfold Inference.predict.
  rewrite (bind_read _ _ self _ (read_eq _ _ (mean_read_state self "predict"))).
  destruct ((mean_data "predict" ≫= h_value) self).1 as [m_p|e]; [|done].
  rewrite (bind_read _ _ self _ (read_eq _ _ (Inference_Kim_state self))).
  destruct (Inference._Kim self).1 as [Kiym|e]; [|done].
  rewrite (bind_read _ _ self _ (read_eq _ _ (cov_read_state self "predict"))).
  destruct ((cov_data "predict" ≫= h_value) self).1 as [K_pp|e]; [|done].
  rewrite (bind_read _ _ self _ (read_eq _ _ (cov_read_state self "learn_predict"))).
  destruct ((cov_data "learn_predict" ≫= h_value) self).1 as [K_lp|e]; [|done].
  unfold mbind, M_bind, lift, mret, M_ret.
  destruct (matvec (transpose K_lp) (Kiym)) as [t|e]; [|done].
  by destruct (add m_p t).
Qed.

(** C8. A second call of [predict()], directly after a first, returns what
    the first returned and leaves the objects as the first left them: in
    [lim/inference] [predict()] changes nothing; in [lim/gp] it changes at
    most the binding of the covariance function under [learn_predict]. *)
Theorem predict_twice self :
  Inference.predict (Inference.predict self).2 = Inference.predict self ∧
  GP.predict (GP.predict self).2 = GP.predict self ∧
  (Inference.predict self).2 = self ∧
  same_but_learn_predict self (GP.predict self).2.
Proof.
  split; [by rewrite Inference_predict_state|].
  split; [by rewrite GP_predict_leaves|].
  split; [apply Inference_predict_state|].
  rewrite GP_predict_leaves. apply same_but_refl.
Qed.

(** *** The two classes side by side *)


End core.

(** ** The heritability driver *)

Section outcomes.
Context {S : Type}.

Lemma returns_bind {A B} (P : A → Prop) (Q : B → Prop) (m : M S A)
    (f : A → M S B) :
  returns P m → (∀ a, P a → returns Q (f a)) → returns Q (m ≫= f).
Proof.
  intros Hm Hf s. destruct (Hm s) as (a & s1 & Hrun & Ha).
  rewrite (bind_ok _ _ _ _ _ Hrun). by apply Hf.
Qed.

Lemma returns_weaken {A} (P Q : A → Prop) (m : M S A) :
  returns P m → (∀ a, P a → Q a) → returns Q m.
Proof.
  intros Hm HPQ s. destruct (Hm s) as (a & s1 & Hrun & Ha). eauto.
Qed.

Lemma returns_ret {A} (P : A → Prop) (a : A) : P a → returns (S := S) P (mret a).
Proof. intros Ha s. by exists a, s. Qed.

Lemma raises_bind_l {A B} e (m : M S A) (f : A → M S B) :
  raises e m → raises e (m ≫= f).
Proof.
  intros Hm s. destruct (Hm s) as (s1 & Hrun).
  rewrite (bind_raise _ _ _ _ _ Hrun). eauto.
Qed.

Lemma raises_bind_r {A B} e (P : A → Prop) (m : M S A) (f : A → M S B) :
  returns P m → (∀ a, P a → raises e (f a)) → raises e (m ≫= f).
Proof.
  intros Hm Hf s. destruct (Hm s) as (a & s1 & Hrun & Ha).
  rewrite (bind_ok _ _ _ _ _ Hrun). by apply Hf.
Qed.

Lemma never_returns_bind_l {A B} (m : M S A) (f : A → M S B) :
  never_returns m → never_returns (m ≫= f).
Proof.
  intros Hm s. destruct (Hm s) as (e & s1 & Hrun).
  rewrite (bind_raise _ _ _ _ _ Hrun). eauto.
Qed.

Lemma never_returns_bind_r {A B} (m : M S A) (f : A → M S B) :
  (∀ a, never_returns (f a)) → never_returns (m ≫= f).
Proof.
  intros Hf s. unfold mbind, M_bind. destruct (m s) as [[a|e] s1]; [|eauto].
  apply Hf.
Qed.

Lemma raises_never_returns {A} e (m : M S A) : raises e m → never_returns m.
Proof. intros Hm s. destruct (Hm s) as (s1 & Hrun). eauto. Qed.
End outcomes.

Section driver_facts.
Context {Obj Heap : Type}.
Import Estimate.
Variable ext : string → list (pyval Obj) → M Heap (pyval Obj).
Variable truth : pyval Obj → M Heap bool.

Lemma load_global_info : raises (NameError "info") (load_global ext "info").
Proof.
  intros s. unfold load_global. rewrite decide_False; [by eexists|].
  unfold module_globals. intros Hin.
  repeat (apply elem_of_cons in Hin as [Hin|Hin]; [discriminate Hin|]).
  by apply elem_of_nil in Hin.
Qed.

Section well_behaved.
Hypothesis Hlib : well_behaved ext truth.

Lemma ext_returns name args : returns (λ _, True) (ext name args).
Proof. apply Hlib. Qed.

Lemma test_returns x : returns (λ _, True) (test truth x).
Proof.
  destruct x; simpl; try apply Hlib. by apply returns_ret.
Qed.

Lemma itruediv_at_returns target index (rhs : M Heap (pyval Obj)) :
  returns (λ _, True) rhs →
  returns (λ _, True) (itruediv_at ext target index rhs).
Proof.
  intros Hrhs. unfold itruediv_at.
  apply (returns_bind _ _ _ _ (ext_returns _ _)); intros element _.
  apply (returns_bind _ _ _ _ Hrhs); intros r _.
  apply (returns_bind _ _ _ _ (ext_returns _ _)); intros element' _.
  apply (returns_bind _ _ _ _ (ext_returns _ _)); intros _ _.
  by apply returns_ret.
Qed.

Lemma stdnorm_returns X axis out :
  returns (λ _, True) (stdnorm ext truth X axis out).
Proof.
  unfold stdnorm.
  apply (returns_bind _ _ _ _ (ext_returns _ _)); intros X' _.
  eapply (returns_bind (λ _, True)).
  { destruct (is_None out); [apply ext_returns|by apply returns_ret]. }
  intros out' _.
  apply (returns_bind _ _ _ _ (ext_returns _ _)); intros m _.
  apply (returns_bind _ _ _ _ (ext_returns _ _)); intros s _.
  apply (returns_bind _ _ _ _ (ext_returns _ _)); intros ok _.
  apply (returns_bind _ _ _ _ (ext_returns _ _)); intros out'' _.
  apply (returns_bind _ _ _ _ (ext_returns _ _)); intros ndim _.
  assert (returns (λ _ : pyval Obj, True)
            (itruediv_at ext out'' (VTuple [VStr "..."; ok])
               (ext "getitem" [s; ok]);;
             mret out'')) as Hgeneral.
  { apply (returns_bind _ _ _ _ (itruediv_at_returns _ _ _ (ext_returns _ _)));
      intros _ _.
    by apply returns_ret. }
  destruct ndim as [|n| | |]; try exact Hgeneral.
  destruct n as [|[| |]|]; try exact Hgeneral.
  apply (returns_bind _ _ _ _ (ext_returns _ _)); intros c _.
  apply (returns_bind _ _ _ _ (test_returns _)); intros [] _.
  - apply ext_returns.
  - by apply returns_ret.
Qed.
End well_behaved.

(** C9. [bernoulli_estimate] returns for no input: from every state and
    whatever the libraries do, it raises.  When the libraries behave and
    [G] and [K] are not both [None], the exception is the [NameError] of
    the name [info], which the function reads and nothing binds. *)
Theorem bernoulli_estimate_never_returns (outcomes G K covariate : pyval Obj) :
  never_returns (bernoulli_estimate ext truth outcomes G K covariate) ∧
  (well_behaved ext truth → is_None G && is_None K = false →
   raises (NameError "info")
     (bernoulli_estimate ext truth outcomes G K covariate)).
Proof.
  split.
  - unfold bernoulli_estimate.
    repeat first
      [ apply never_returns_bind_l, (raises_never_returns _ _ load_global_info)
      | apply never_returns_bind_r; intros ?
      | match goal with
        | |- never_returns (let '(_, _) := ?x in _) => destruct x
        end ].
  - intros Hlib Hin. unfold bernoulli_estimate.
    apply (raises_bind_r _ _ _ _ (ext_returns Hlib _ _)); intros logger _.
    apply (raises_bind_r _ _ _ _ (ext_returns Hlib _ _)); intros _ _.
    apply (raises_bind_r _ _ _ _ (ext_returns Hlib _ _)); intros outcomes' _.
    eapply (raises_bind_r _ (λ _, True)).
    { destruct (negb (is_None K)); [|by apply returns_ret].
      apply (returns_bind _ _ _ _ (ext_returns Hlib _ _)); intros _ _.
      apply (returns_bind _ _ _ _ (ext_returns Hlib _ _)); intros _ _.
      by apply returns_ret. }
    intros _ _.
    eapply (raises_bind_r _ (λ G', is_None G' && is_None K = false)).
    { destruct (is_None G) eqn:HG; simpl.
      - apply returns_ret. by rewrite HG.
      - apply (returns_bind _ _ _ _ (ext_returns Hlib _ _)); intros _ _.
        apply (returns_bind _ _ _ _ (stdnorm_returns Hlib _ _ _)); intros _ _.
        apply (returns_bind _ _ _ _ (ext_returns Hlib _ _)); intros mean _.
        apply (returns_bind _ _ _ _ (ext_returns Hlib _ _)); intros G1 _.
        apply (returns_bind _ _ _ _ (ext_returns Hlib _ _)); intros s _.
        apply (returns_bind _ _ _ _ (ext_returns Hlib _ _)); intros ok _.
        apply (returns_bind _ _ _ _
                 (itruediv_at_returns Hlib _ _ _ (ext_returns Hlib _ _)));
          intros _ _.
        apply (returns_bind _ _ _ _ (ext_returns Hlib _ _)); intros shape _.
        apply (returns_bind _ _ _ _ (ext_returns Hlib _ _)); intros ncol _.
        apply (returns_bind _ _ _ _ (ext_returns Hlib _ _)); intros root _.
        eapply returns_weaken; [apply Hlib|].
        intros v Hv. by destruct v. }
    intros G' HG'. rewrite HG'.
    apply (raises_bind_r _ (λ _, True)); [by apply returns_ret|]; intros _ _.
    apply (raises_bind_r _ _ _ _ (test_returns Hlib _)); intros b _.
    eapply (raises_bind_r _ (λ v, ∃ a b, v = VTuple [a; b])).
    { destruct Hlib as (_ & Hqs & _). destruct b; apply Hqs; auto. }
    intros QS (Q & S' & ->).
    apply (raises_bind_r _ (λ _, True)); [by apply returns_ret|]; intros [? ?] _.
    apply (raises_bind_r _ _ _ _ (ext_returns Hlib _ _)); intros Q0 _.
    apply (raises_bind_r _ _ _ _ (ext_returns Hlib _ _)); intros Q1 _.
    apply (raises_bind_r _ _ _ _ (ext_returns Hlib _ _)); intros S0 _.
    apply (raises_bind_r _ _ _ _ (ext_returns Hlib _ _)); intros mean_S0 _.
    apply (raises_bind_r _ _ _ _ (ext_returns Hlib _ _)); intros S0' _.
    apply raises_bind_l, load_global_info.
Qed.
End driver_facts.

(** ** The properties at concrete inputs *)

Section concrete.
Import Exact.
#[local] Abbreviation ex := (example false false).

(** equality of lists of rationals, entry by entry *)
Ltac qc_list :=
  vm_compute;
  repeat first
    [ reflexivity
    | apply (f_equal2 cons); [apply Qc_is_canon; reflexivity|] ].

(** arithmetic of the rationals behind the canonical ones *)
Ltac qc_ring :=
  apply Qc_is_canon;
  unfold Qcplus, Qcmult, Qcopp, Q2Qc, Qc_of_Z; cbn [this];
  rewrite ?Qred_correct; ring.

(** [K_inverse] inverts a matrix of two columns given by its entries *)
Ltac qc_left_inverse :=
  split; [reflexivity|];
  intros [|? [|? [|]]] [=];
  cbv [apply inner vsum rows zip_with map foldl K_inverse fadd fmul of_int
       Qc_scalar];
  apply (f_equal2 cons); [qc_ring|]; apply (f_equal2 cons); [qc_ring|done].

Lemma example_lml_facts (f1 f2 : bool) :
  ∃ m K ym Kiym s logdet,
    mean_value (example f1 f2) "learn" m ∧
    cov_value (example f1 f2) "learn" K ∧
    sub (_y (example f1 f2)) m = Ok ym ∧
    solve K ym = Ok Kiym ∧
    length Kiym = length ym ∧
    slogdet K = Ok (s, logdet) ∧
    feqb s (of_int 1) = true ∧
    left_inverse K_inverse K ∧
    solves K Kiym ym.
Proof.
  eexists _, _, _, _, _, _.
  split; [eexists; split; vm_compute; reflexivity|].
  split; [eexists; split; vm_compute; reflexivity|].
  split; [vm_compute; reflexivity|].
  split; [vm_compute; reflexivity|].
  split; [reflexivity|].
  split; [vm_compute; reflexivity|].
  split; [reflexivity|].
  split; [qc_left_inverse|split; [reflexivity|qc_list]].
Defined.

Lemma example_learn_solve (f1 f2 : bool) :
  ∃ ym Kiym, learn_solve (example f1 f2) ym Kiym ∧ length Kiym = length ym.
Proof.
  destruct (example_lml_facts f1 f2)
    as (m & K & ym & Kiym & s & ld & Hm & HK & Hsub & Hsolve & Hlen & _).
  exists ym, Kiym. split; [by exists m, K|done].
Defined.

Lemma example_cov_sign (f1 f2 : bool) :
  ∃ K s logdet, cov_value (example f1 f2) "learn" K ∧
                slogdet K = Ok (s, logdet) ∧ feqb s (of_int 1) = true.
Proof.
  destruct (example_lml_facts f1 f2)
    as (m & K & ym & Kiym & s & ld & _ & HK & _ & _ & _ & Hdet & Hs & _).
  by exists K, s, ld.
Defined.

Lemma example_negative_facts :
  ∃ K s logdet ym Kiym,
    cov_value example_negative "learn" K ∧ slogdet K = Ok (s, logdet) ∧
    feqb s (of_int 1) = false ∧ learn_solve example_negative ym Kiym.
Proof.
  eexists _, _, _, _, _. split; [eexists; split; reflexivity|].
  split; [vm_compute; reflexivity|]. split; [vm_compute; reflexivity|].
  eexists _, _. split; [eexists; split; reflexivity|].
  split; [eexists; split; reflexivity|].
  split; vm_compute; reflexivity.
Defined.

Lemma lml_closed_form_witness :
  ∃ v ym Kiym,
    GP.lml (example true false) = (Ok v, example true false) ∧
    Inference.lml (example true false) = (Ok v, example true false) ∧
    v = Q2Qc (-109 # 14) ∧
    inner ym Kiym = quadratic_form ym K_inverse.
Proof.
  destruct (example_lml_facts true false)
    as (m & K & ym & Kiym & s & ld
        & Hm & HK & Hsub & Hsolve & Hlen & Hdet & Hs & Hinv & Hsolves).
  destruct (lml_closed_form (example true false) m K ym Kiym s ld
              Hm HK Hsub Hsolve Hlen Hdet Hs) as (HG & HI & Hquad).
  eexists _, ym, Kiym. split; [exact HG|]. split; [exact HI|].
  split; [|exact (Hquad K_inverse Hinv Hsolves)].
  assert (∃ c, (GP.lml (example true false)).1 = Ok c ∧ c = Q2Qc (-109 # 14))
    as (c & Hc & <-)
    by (eexists; split; [vm_compute; reflexivity|by apply Qc_is_canon]).
  rewrite HG in Hc. simpl in Hc. by injection Hc.
Defined.

Lemma lml_sign_check_witness :
  (∃ v, GP.lml (example true false) = (Ok v, example true false) ∧
        Inference.lml (example true false) = (Ok v, example true false)) ∧
  GP.lml example_negative = (Raise AssertionError, example_negative) ∧
  Inference.lml example_negative = (Raise AssertionError, example_negative).
Proof.
  split.
  - destruct (example_cov_sign true false) as (K & s & ld & HK & Hdet & Hs).
    destruct (example_learn_solve true false) as (ym & Kiym & HKim & Hlen).
    destruct (lml_sign_check _ K s ld HK Hdet) as [_ Hpos].
    exact (Hpos Hs ym Kiym HKim Hlen).
  - destruct example_negative_facts
      as (K & s & ld & ym & Kiym & HK & Hdet & Hs & HKim).
    destruct (lml_sign_check _ K s ld HK Hdet) as [Hneg _].
    destruct (Hneg Hs) as (_ & _ & Hassert).
    exact (Hassert ym Kiym HKim).
Defined.

(** C2, as stated, fails: with one free hyperparameter of the mean and one
    of the covariance, the first entry of [lml_gradient()] is the entry of
    the covariance hyperparameter and the second that of the mean
    hyperparameter, and the two entries differ. *)
Lemma lml_gradient_not_mean_first :
  ∃ dc dm,
    length (free_mean ex) = 1%nat ∧ length (free_cov ex) = 1%nat ∧
    (GP._lml_gradient_mean ex).1 = Ok [dm] ∧
    (GP._lml_gradient_cov ex).1 = Ok [dc] ∧
    (GP.lml_gradient ex).1 = Ok [dc; dm] ∧
    (Inference.lml_gradient ex).1 = Ok [dc; dm] ∧
    (GP.lml_gradient ex).1 ≠ Ok [dm; dc] ∧
    (Inference.lml_gradient ex).1 ≠ Ok [dm; dc].
Proof.
  eexists _, _.
  split; [done|]. split; [done|].
  split; [vm_compute; reflexivity|].
  split; [vm_compute; reflexivity|].
  split; [vm_compute; reflexivity|].
  split; [vm_compute; reflexivity|].
  split; vm_compute; by intros [=].
Qed.

Lemma example_gradient_facts :
  ∃ K ym Kiym dK dM KidK,
    cov_value ex "learn" K ∧
    learn_solve ex ym Kiym ∧
    cov_gradient ex "learn" [dK] ∧
    nrows dK = length Kiym ∧ ncols dK = length Kiym ∧
    solve_matrix K dK = Ok KidK ∧
    mean_gradient ex "learn" [dM] ∧
    length dM = length Kiym ∧
    left_inverse K_inverse K ∧
    solves_matrix K KidK dK.
Proof.
  eexists _, _, _, _, _, _.
  split; [eexists; split; vm_compute; reflexivity|].
  split.
  { eexists _, _. split; [eexists; split; vm_compute; reflexivity|].
    split; [eexists; split; vm_compute; reflexivity|].
    split; vm_compute; reflexivity. }
  split; [eexists; split; vm_compute; reflexivity|].
  split; [reflexivity|]. split; [reflexivity|].
  split; [vm_compute; reflexivity|].
  split; [eexists; split; vm_compute; reflexivity|].
  split; [reflexivity|].
  split; [qc_left_inverse|].
  split; [reflexivity|]. split; [reflexivity|].
  intros [|[|j]] Hj; [qc_list|qc_list|vm_compute in Hj; lia].
Defined.

Lemma lml_gradient_blocks_witness :
  ∃ gc gm,
    GP.lml_gradient ex = (Ok (gc ++ gm)%list, ex) ∧
    Inference.lml_gradient ex = (Ok (gc ++ gm)%list, ex) ∧
    length gc = length (free_cov ex) ∧
    length gm = length (free_mean ex).
Proof.
  destruct example_gradient_facts
    as (K & ym & Kiym & dK & dM & KidK
        & HK & HKim & HdK & Hr & Hc & HS & HdM & HlM & _).
  destruct (lml_gradient_blocks ex K ym Kiym [dK] [dM] HK HKim HdK eq_refl)
    as (gc & gm & HG & HI & _ & _ & Hlc & Hlm).
  - intros ? ->%list_elem_of_singleton. eauto.
  - exact HdM.
  - reflexivity.
  - by intros ? ->%list_elem_of_singleton.
  - exists gc, gm. repeat split; assumption.
Defined.

Lemma lml_gradient_cov_entries_witness :
  ∃ K Kiym dK gj,
    GP._lml_gradient_cov ex = (Ok [gj], ex) ∧
    Inference._lml_gradient_cov ex = (Ok [gj], ex) ∧
    cov_entry K Kiym dK gj ∧
    gj = fdiv (fadd (fneg (trace_of_product K_inverse dK))
                    (quadratic_form Kiym dK)) (of_int 2).
Proof.
  destruct example_gradient_facts
    as (K & ym & Kiym & dK & dM & KidK
        & HK & HKim & HdK & Hr & Hc & HS & _ & _ & Hinv & Hsolves).
  destruct (lml_gradient_cov_entries ex K ym Kiym [dK] HK HKim HdK eq_refl)
    as (g & HG & HI & Hg & _ & Hinverse).
  - intros ? ->%list_elem_of_singleton. eauto.
  - specialize (Hinverse K_inverse Hinv).
    destruct g as [|gj [|? ?]];
      [by apply Forall2_length in Hg| |by apply Forall2_length in Hg].
    apply Forall2_cons_1 in Hg as [Hgj _].
    apply Forall2_cons_1 in Hinverse as [Hexact _].
    exists K, Kiym, dK, gj. repeat split; try assumption.
    exact (Hexact KidK HS Hsolves).
Defined.

Lemma example_predict_facts :
  ∃ m_p ym Kiym K_pp K_lp,
    mean_value ex "predict" m_p ∧
    learn_solve ex ym Kiym ∧
    cov_value ex "predict" K_pp ∧
    cov_value ex "learn_predict" K_lp ∧
    nrows K_lp = length Kiym ∧ ncols K_lp = length m_p.
Proof.
  eexists _, _, _, _, _.
  split; [eexists; split; vm_compute; reflexivity|].
  split.
  { eexists _, _. split; [eexists; split; vm_compute; reflexivity|].
    split; [eexists; split; vm_compute; reflexivity|].
    split; vm_compute; reflexivity. }
  split; [eexists; split; vm_compute; reflexivity|].
  split; [eexists; split; vm_compute; reflexivity|].
  split; reflexivity.
Defined.

Lemma predict_closed_form_witness :
  ∃ est,
    Inference.predict ex = (Ok est, ex) ∧
    length est = 1%nat ∧
    GP.predict ex = (Raise TypeError, ex).
Proof.
  destruct example_predict_facts
    as (m_p & ym & Kiym & K_pp & K_lp & Hmp & HKim & HKpp & HKlp & Hr & Hc).
  destruct (predict_closed_form ex m_p ym Kiym K_pp Hmp HKim HKpp)
    as [HI HG].
  destruct (HI K_lp HKlp Hr Hc) as [HIrun Hlen].
  exists (predict_formula m_p K_lp Kiym).
  split; [done|]. split; [|exact HG].
  rewrite Hlen. destruct Hmp as (h & Hd & Hv).
  vm_compute in Hd. injection Hd as <-. vm_compute in Hv. by injection Hv as <-.
Defined.

Lemma learn_dispatch_witness :
  (GP.learn probe_value probe_gradient (example true true)
     = (Ok tt, setattr "gradient" (setattr "value" (example true true))) ∧
   Inference.learn probe_value probe_gradient (example true true)
     = (Ok tt, example true true)) ∧
  (GP.learn probe_value probe_gradient (example true false)
     = probe_value GP.self_
         (setattr "gradient" (setattr "value" (example true false))) ∧
   Inference.learn probe_value probe_gradient (example true false)
     = probe_value Inference.self_ (example true false)) ∧
  (GP.learn probe_value probe_gradient ex
     = probe_gradient GP.self_ (setattr "gradient" (setattr "value" ex)) ∧
   Inference.learn probe_value probe_gradient ex
     = probe_gradient Inference.self_ ex).
Proof.
  split; [|split].
  - destruct (learn_dispatch probe_value probe_gradient (example true true))
      as (H0 & _ & _).
    destruct (H0 eq_refl) as (HG & HI & _). by split.
  - destruct (learn_dispatch probe_value probe_gradient (example true false))
      as (_ & H1 & _).
    exact (H1 eq_refl).
  - destruct (learn_dispatch probe_value probe_gradient ex) as (_ & _ & H2).
    apply H2. simpl. lia.
Defined.

(** C7, as stated, fails: [y] has three entries, the learn-purpose mean two
    and the learn-purpose covariance two rows and columns, and the
    construction returns an instance. *)
Lemma init_accepts_mismatch :
  dimensions_mismatch y_long (_mean ex) (_cov ex) ∧
  (∃ self, GP.__init__ y_long (_mean ex) (_cov ex) = Ok self) ∧
  (∃ self, Inference.__init__ y_long (_mean ex) (_cov ex) = Ok self).
Proof.
  split; [|split; by eexists].
  eexists _, _, _, _.
  split; [vm_compute; reflexivity|]. split; [vm_compute; reflexivity|].
  split; [vm_compute; reflexivity|]. split; [vm_compute; reflexivity|].
  by intros [[=] _].
Qed.

Lemma init_stores_references_witness :
  ∃ self,
    GP.__init__ y_long (_mean ex) (_cov ex) = Ok self ∧
    Inference.__init__ y_long (_mean ex) (_cov ex) = Ok self ∧
    GP.lml self = (Raise ValueError, self) ∧
    Inference.lml self = (Raise ValueError, self).
Proof.
  destruct (init_stores_references y_long (_mean ex) (_cov ex))
    as (HG & HI & Hlml).
  eexists. split; [exact HG|]. split; [exact HI|].
  eapply Hlml.
  - eexists; split; vm_compute; reflexivity.
  - eexists; split; vm_compute; reflexivity.
  - by intros [=].
  - by intros [=].
  - by intros [=].
Defined.

Lemma quiet_well_behaved {Heap : Type} :
  well_behaved (Heap := Heap) quiet_ext quiet_truth.
Proof.
  repeat split.
  - intros name args s. unfold quiet_ext. case_decide; by eexists _, _.
  - intros name args Hname s. unfold quiet_ext.
    rewrite decide_True by done. eexists _, _. split; [done|]. by eexists _, _.
  - intros args s. by eexists _, _.
  - intros x s. by eexists _, _.
Defined.

Lemma bernoulli_estimate_never_returns_witness :
  never_returns (S := unit)
    (Estimate.bernoulli_estimate quiet_ext quiet_truth
       (Estimate.VObj tt) (Estimate.VObj tt) Estimate.VNone Estimate.VNone) ∧
  raises (S := unit) (NameError "info")
    (Estimate.bernoulli_estimate quiet_ext quiet_truth
       (Estimate.VObj tt) (Estimate.VObj tt) Estimate.VNone Estimate.VNone).
Proof.
  destruct (bernoulli_estimate_never_returns (Heap := unit)
              quiet_ext quiet_truth
              (Estimate.VObj tt) (Estimate.VObj tt)
              Estimate.VNone Estimate.VNone) as [Hnever Hinfo].
  split; [exact Hnever|].
  exact (Hinfo quiet_well_behaved eq_refl).
Defined.


End concrete.

(** * Further properties of the regression core *)

Section reads.
Context {S : Type}.

Lemma leaves_state_bind {A B} (m : M S A) (f : A → M S B) :
  leaves_state m → (∀ a, leaves_state (f a)) → leaves_state (m ≫= f).
Proof.
  intros Hm Hf s. unfold mbind, M_bind. specialize (Hm s).
  destruct (m s) as [[a|e] s1]; simpl in Hm; subst s1; [apply Hf|done].
Qed.

Lemma leaves_state_ret {A} (a : A) : leaves_state (S := S) (mret a).
Proof. done. Qed.

Lemma leaves_state_lift {A} (r : result A) : leaves_state (S := S) (lift r).
Proof. done. Qed.

Lemma leaves_state_gets {A} (f : S → A) : leaves_state (gets f).
Proof. done. Qed.

Lemma leaves_state_assert (c : bool) : leaves_state (S := S) (assert c).
Proof. by destruct c. Qed.

Lemma leaves_state_for_each {A B} (f : A → M S B) (l : list A) :
  (∀ x, leaves_state (f x)) → leaves_state (for_each f l).
Proof.
  intros Hf. induction l as [|x l IH]; [done|]. simpl.
  apply leaves_state_bind; [apply Hf|]. intros y.
  apply leaves_state_bind; [apply IH|]. intros ys. done.
Qed.

(** a loop that raises at its element [x], after the elements before it *)
Lemma for_each_raise {A B} (f : A → M S B) l1 x l2 e s :
  (∀ y, y ∈ l1 → ∃ b, f y s = (Ok b, s)) →
  f x s = (Raise e, s) →
  for_each f (l1 ++ x :: l2) s = (Raise e, s).
Proof.
  intros Hl1 Hx. induction l1 as [|y l1 IH]; simpl.
  - by rewrite (bind_raise _ _ _ _ _ Hx).
  - destruct (Hl1 y (list_elem_of_here _ _)) as [b Hb].
    rewrite (bind_ok _ _ _ _ _ Hb).
    rewrite (bind_raise _ _ _ _ _
               (IH (λ z Hz, Hl1 z (list_elem_of_further _ _ _ Hz)))).
    done.
Qed.
End reads.

Section more_core.
Context {R : Type} `{!Scalar R} `{!Linalg R} {X MRaw : Type}.
Implicit Type self : RegGP R X MRaw.
Local Open Scope scalar_scope.

Ltac leaves :=
  repeat first
    [ apply leaves_state_ret | apply leaves_state_lift
    | apply leaves_state_gets | apply leaves_state_assert
    | apply leaves_state_for_each; intros ?
    | apply leaves_state_bind; [|intros ?]
    | match goal with
      | |- leaves_state (let '(_, _) := ?x in _) => destruct x
      end
    | done ].

Lemma leaves_state_mean_data (purpose : string) :
  leaves_state (mean_data (R := R) (X := X) (MRaw := MRaw) purpose).
Proof. done. Qed.

Lemma leaves_state_cov_data (purpose : string) :
  leaves_state (cov_data (R := R) (X := X) (MRaw := MRaw) purpose).
Proof. done. Qed.

Lemma leaves_state_Kim : leaves_state (GP._Kim (X := X) (MRaw := MRaw)).
Proof. unfold GP._Kim, h_value. leaves. Qed.

(** X1. [lml()], [lml_gradient()] and [variables()] read only: whatever
    their outcome, a value or an exception, the observation vector, the
    bindings and the hyperparameters are afterwards what they were. *)
Theorem objective_reads_only :
  leaves_state (GP.lml (X := X) (MRaw := MRaw)) ∧
  leaves_state (GP.lml_gradient (X := X) (MRaw := MRaw)) ∧
  leaves_state (GP.variables (R := R) (X := X) (MRaw := MRaw)) ∧
  leaves_state (Inference.lml (X := X) (MRaw := MRaw)) ∧
  leaves_state (Inference.lml_gradient (X := X) (MRaw := MRaw)) ∧
  leaves_state (Inference.variables (R := R) (X := X) (MRaw := MRaw)).
Proof.
  assert (leaves_state (GP.lml (X := X) (MRaw := MRaw))) as Hlml.
  { unfold GP.lml, h_value. leaves. }
  assert (leaves_state (GP.lml_gradient (X := X) (MRaw := MRaw))) as Hgrad.
  { unfold GP.lml_gradient, GP._lml_gradient_cov, GP._lml_gradient_mean,
      h_value, h_gradient.
    leaves. }
  split; [exact Hlml|]. split; [exact Hgrad|]. split; [done|].
  split; [exact Hlml|]. split; [exact Hgrad|done].
Qed.

(** X2. With every hyperparameter fixed, [lml_gradient()] returns the
    empty list, and it does so without a call of [gradient()]; the linear
    solve is performed all the same, and has to return. *)
Theorem lml_gradient_nothing_free self K ym Kiym :
  free_mean self = [] →
  free_cov self = [] →
  cov_value self "learn" K →
  learn_solve self ym Kiym →
  GP.lml_gradient self = (Ok [], self) ∧
  Inference.lml_gradient self = (Ok [], self).
Proof.
  intros Hfm Hfc HK HKim.
  assert (GP.lml_gradient self = (Ok [], self)) as Hrun; [|by split].
  apply (GP_lml_gradient_run self [] []).
  - unfold GP._lml_gradient_cov.
    rewrite (bind_ok (gets _) _ self (free_cov self) self eq_refl).
    rewrite (bind_ok _ _ _ _ _ (cov_value_run _ _ _ HK)).
    rewrite (bind_ok _ _ _ _ _ (GP_Kim_run _ _ _ HKim)).
    by rewrite Hfc.
  - unfold GP._lml_gradient_mean.
    rewrite (bind_ok (gets _) _ self (free_mean self) self eq_refl).
    rewrite (bind_ok _ _ _ _ _ (GP_Kim_run _ _ _ HKim)).
    by rewrite Hfm.
Qed.

Lemma GP_Kim_raise self m K ym e :
  mean_value self "learn" m →
  cov_value self "learn" K →
  sub (_y self) m = Ok ym →
  solve K ym = Raise e →
  GP._Kim self = (Raise e, self).
Proof.
  intros Hm HK Hsub Hsolve. unfold GP._Kim.
  rewrite (bind_ok _ _ _ _ _ (mean_value_run _ _ _ Hm)).
  rewrite (bind_ok _ _ _ _ _ (cov_value_run _ _ _ HK)).
  unfold mbind, M_bind, gets, lift. by rewrite Hsub, Hsolve.
Qed.

(** X3. An exception of the linear solve [solve(K, y - m)], such as that
    for a singular covariance, is the outcome of [lml()], of
    [lml_gradient()] and of [predict()]: the solve comes before the check
    of the sign in [lml()], and it is performed by [lml_gradient()] even
    when no hyperparameter is free. *)
Theorem solve_failure_propagates self m K ym e :
  mean_value self "learn" m →
  cov_value self "learn" K →
  sub (_y self) m = Ok ym →
  solve K ym = Raise e →
  GP.lml self = (Raise e, self) ∧
  GP.lml_gradient self = (Raise e, self) ∧
  Inference.lml self = (Raise e, self) ∧
  Inference.lml_gradient self = (Raise e, self) ∧
  (∀ m_p, mean_value self "predict" m_p →
     GP.predict self = (Raise e, self) ∧
     Inference.predict self = (Raise e, self)).
Proof.
  intros Hm HK Hsub Hsolve.
  pose proof (GP_Kim_raise self m K ym e Hm HK Hsub Hsolve) as HKim.
  assert (GP.lml self = (Raise e, self)) as Hlml.
  { unfold GP.lml.
    rewrite (bind_ok (gets _y) _ self (_y self) self eq_refl).
    by rewrite (bind_raise _ _ _ _ _ HKim). }
  assert (GP.lml_gradient self = (Raise e, self)) as Hgrad.
  { unfold GP.lml_gradient. apply bind_raise. unfold GP._lml_gradient_cov.
    rewrite (bind_ok (gets _) _ self (free_cov self) self eq_refl).
    rewrite (bind_ok _ _ _ _ _ (cov_value_run _ _ _ HK)).
    by rewrite (bind_raise _ _ _ _ _ HKim). }
  split; [exact Hlml|]. split; [exact Hgrad|].
  split; [exact Hlml|]. split; [exact Hgrad|].
  intros m_p Hmp.
  assert (GP.predict self = (Raise e, self)) as HG.
  { unfold GP.predict.
    rewrite (bind_ok _ _ _ _ _ (mean_value_run _ _ _ Hmp)).
    by rewrite (bind_raise _ _ _ _ _ HKim). }
  split; [exact HG|].
  unfold Inference.predict.
  rewrite (bind_ok _ _ _ _ _ (mean_value_run _ _ _ Hmp)).
  by rewrite (bind_raise _ _ _ _ _ (HKim : Inference._Kim self = _)).
Qed.

Lemma seq_split (k n : nat) :
  (k < n)%nat → seq 0 n = (seq 0 k ++ k :: seq (S k) (n - S k))%list.
Proof.
  intros Hk. replace n with (k + S (n - S k))%nat at 1 by lia.
  by rewrite seq_app.
Qed.

Lemma GP_lml_gradient_mean_short self ym Kiym dMs :
  learn_solve self ym Kiym →
  mean_gradient self "learn" dMs →
  (length dMs < length (free_mean self))%nat →
  (∀ dM, dM ∈ dMs → length dM = length Kiym) →
  GP._lml_gradient_mean self = (Raise IndexError, self).
Proof.
  intros HKim HdM Hlen Hshape. unfold GP._lml_gradient_mean.
  rewrite (bind_ok (gets _) _ self (free_mean self) self eq_refl).
  rewrite (bind_ok _ _ _ _ _ (GP_Kim_run _ _ _ HKim)).
  rewrite (seq_split _ _ Hlen). apply for_each_raise.
  - intros i [_ Hi]%elem_of_seq. simpl in Hi.
    destruct (lookup_lt_is_Some_2 dMs i Hi) as [dM HdMi].
    rewrite (bind_ok _ _ _ _ _ (mean_gradient_run _ _ _ HdM)).
    unfold mbind, M_bind, lift, getitem. rewrite HdMi.
    rewrite dot_inner; [by eexists|].
    apply Hshape. by eapply list_elem_of_lookup_2.
  - rewrite (bind_ok _ _ _ _ _ (mean_gradient_run _ _ _ HdM)).
    unfold mbind, M_bind, lift, getitem.
    by rewrite (lookup_ge_None_2 dMs (length dMs)).
Qed.

(** X4. When [gradient()] of the mean returns fewer derivatives than the
    mean has free hyperparameters, [lml_gradient()] raises [IndexError]
    (the covariance block, which comes first, having been computed). *)
Theorem lml_gradient_too_few_mean_derivatives self ym Kiym dMs gc :
  GP._lml_gradient_cov self = (Ok gc, self) →
  learn_solve self ym Kiym →
  mean_gradient self "learn" dMs →
  (length dMs < length (free_mean self))%nat →
  (∀ dM, dM ∈ dMs → length dM = length Kiym) →
  GP.lml_gradient self = (Raise IndexError, self) ∧
  Inference.lml_gradient self = (Raise IndexError, self).
Proof.
  intros Hgc HKim HdM Hlen Hshape.
  assert (GP.lml_gradient self = (Raise IndexError, self)) as H; [|by split].
  unfold GP.lml_gradient. rewrite (bind_ok _ _ _ _ _ Hgc).
  by rewrite (bind_raise _ _ _ _ _
                (GP_lml_gradient_mean_short _ _ _ _ HKim HdM Hlen Hshape)).
Qed.

(** X5. When [gradient()] of the covariance returns fewer derivatives than
    the covariance has free hyperparameters, [lml_gradient()] raises
    [IndexError], whatever the mean function does. *)
Theorem lml_gradient_too_few_cov_derivatives self K ym Kiym dKs :
  cov_value self "learn" K →
  learn_solve self ym Kiym →
  cov_gradient self "learn" dKs →
  (length dKs < length (free_cov self))%nat →
  (∀ dK, dK ∈ dKs →
     nrows dK = length Kiym ∧ ncols dK = length Kiym ∧
     ∃ KidK, solve_matrix K dK = Ok KidK) →
  GP.lml_gradient self = (Raise IndexError, self) ∧
  Inference.lml_gradient self = (Raise IndexError, self).
Proof.
  intros HK HKim HdK Hlen Hshape.
  assert (GP.lml_gradient self = (Raise IndexError, self)) as H; [|by split].
  unfold GP.lml_gradient. apply bind_raise. unfold GP._lml_gradient_cov.
  rewrite (bind_ok (gets _) _ self (free_cov self) self eq_refl).
  rewrite (bind_ok _ _ _ _ _ (cov_value_run _ _ _ HK)).
  rewrite (bind_ok _ _ _ _ _ (GP_Kim_run _ _ _ HKim)).
  apply bind_raise. rewrite (seq_split _ _ Hlen). apply for_each_raise.
  - intros i [_ Hi]%elem_of_seq. simpl in Hi.
    destruct (lookup_lt_is_Some_2 dKs i Hi) as [dK HdKi].
    destruct (Hshape dK) as (Hr & Hc & KidK & HS);
      [by eapply list_elem_of_lookup_2|].
    rewrite (bind_ok _ _ _ _ _ (cov_gradient_run _ _ _ HdK)).
    unfold mbind, M_bind, lift, getitem, mret, M_ret. rewrite HdKi, HS.
    rewrite (matvec_apply dK Kiym Hc).
    rewrite dot_inner by (by rewrite apply_length). by eexists.
  - rewrite (bind_ok _ _ _ _ _ (cov_gradient_run _ _ _ HdK)).
    unfold mbind, M_bind, lift, getitem.
    by rewrite (lookup_ge_None_2 dKs (length dKs)).
Qed.

Lemma map_seq_take {A B} (F : option A → B) (l : list A) (n : nat) :
  (n ≤ length l)%nat →
  map (λ i, F (l !! i)) (seq 0 n) = map (λ x, F (Some x)) (take n l).
Proof.
  intros Hn. rewrite <- (map_seq_lookup F (take n l)).
  rewrite length_take, Nat.min_l by done.
  apply map_ext_in. intros i [_ Hi]%in_seq.
  by rewrite lookup_take_lt by (simpl in Hi; lia).
Qed.

(** X6. Of the derivatives that [gradient()] of the mean returns, those
    beyond the number [n] of free hyperparameters of the mean are never
    read: the mean block is [dM · Kiym] for the first [n] derivatives, and
    only these need the length of [Kiym]. *)
Theorem lml_gradient_mean_surplus self ym Kiym dMs :
  learn_solve self ym Kiym →
  mean_gradient self "learn" dMs →
  (length (free_mean self) ≤ length dMs)%nat →
  (∀ dM, dM ∈ take (length (free_mean self)) dMs →
     length dM = length Kiym) →
  GP._lml_gradient_mean self
    = (Ok (map (λ dM, inner dM Kiym) (take (length (free_mean self)) dMs)),
       self) ∧
  Inference._lml_gradient_mean self
    = (Ok (map (λ dM, inner dM Kiym) (take (length (free_mean self)) dMs)),
       self).
Proof.
  intros HKim HdM Hlen Hshape.
  match goal with |- ?P ∧ _ => assert P as H; [|by split] end.
  unfold GP._lml_gradient_mean.
  rewrite (bind_ok (gets _) _ self (free_mean self) self eq_refl).
  rewrite (bind_ok _ _ _ _ _ (GP_Kim_run _ _ _ HKim)).
  rewrite (for_each_ok _
    (λ i, match dMs !! i with
          | Some dM => inner dM Kiym
          | None => of_int 0
          end)).
  - by rewrite (map_seq_take
      (λ o, match o with Some dM => inner dM Kiym | None => of_int 0 end)).
  - intros i [_ Hi]%elem_of_seq. simpl in Hi.
    destruct (lookup_lt_is_Some_2 dMs i ltac:(lia)) as [dM HdMi].
    rewrite (bind_ok _ _ _ _ _ (mean_gradient_run _ _ _ HdM)).
    unfold mbind, M_bind, lift, getitem. rewrite HdMi.
    rewrite dot_inner; [done|].
    apply Hshape. apply list_elem_of_lookup. exists i.
    by rewrite lookup_take_lt.
Qed.

(** X7. [predict()] of [lim/gp] returns for no instance.  It raises the
    exception of the first of its reads that raises (the predict-purpose
    mean, the linear solve, the predict-purpose covariance), and when all
    three return, the [TypeError] of its call of [set_data]; the objects
    are left as they were, and nothing is bound or unbound under
    [learn_predict]. *)
Theorem gp_predict_never_returns self :
  ∃ e, GP.predict self = (Raise e, self) ∧
       ((mean_data "predict" ≫= h_value) self = (Raise e, self) ∨
        GP._Kim self = (Raise e, self) ∨
        (cov_data "predict" ≫= h_value) self = (Raise e, self) ∨
        (e = TypeError ∧
         ∃ m_p Kiym K_pp,
           (mean_data "predict" ≫= h_value) self = (Ok m_p, self) ∧
           GP._Kim self = (Ok Kiym, self) ∧
           (cov_data "predict" ≫= h_value) self = (Ok K_pp, self))).
Proof.
  unfold GP.predict, GP._Kim, mean_data, cov_data, cov_set_data, h_value,
    lift, gets, raise, mbind, M_bind, mret, M_ret.
  repeat match goal with
         | |- context [match ?x with _ => _ end] =>
             lazymatch x with
             | context [match _ with _ => _ end] => fail
             | _ => destruct x eqn:?
             end
         end;
    simplify_eq; simpl; eauto 12.
Qed.

(** X9. Both [predict()] evaluate the covariance under the purpose
    [predict], of which the result makes no use: an exception of that
    evaluation is the outcome of [predict()]. *)
Theorem predict_needs_unused_covariance self m_p ym Kiym h e :
  mean_value self "predict" m_p →
  learn_solve self ym Kiym →
  data (_cov self) "predict" = Ok h →
  hd_value h = Raise e →
  GP.predict self = (Raise e, self) ∧
  Inference.predict self = (Raise e, self).
Proof.
  intros Hmp HKim Hd Hv.
  assert ((cov_data "predict" ≫= h_value) self = (Raise e, self)) as HKpp
    by (unfold mbind, M_bind, cov_data, h_value, lift; by rewrite Hd, Hv).
  split.
  - unfold GP.predict.
    rewrite (bind_ok _ _ _ _ _ (mean_value_run _ _ _ Hmp)).
    rewrite (bind_ok _ _ _ _ _ (GP_Kim_run _ _ _ HKim)).
    by rewrite (bind_raise _ _ _ _ _ HKpp).
  - unfold Inference.predict.
    rewrite (bind_ok _ _ _ _ _ (mean_value_run _ _ _ Hmp)).
    rewrite (bind_ok _ _ _ _ _ (Inference_Kim_run _ _ _ HKim)).
    by rewrite (bind_raise _ _ _ _ _ HKpp).
Qed.

(** X10. In [lim/gp] the instance has no [value] and no [gradient] until
    [learn()] has assigned them: on a newly constructed instance both raise
    [AttributeError], and after a [learn()] that finds no free
    hyperparameter they are [lml()] and [lml_gradient()].  In
    [lim/inference] they are methods of the class, defined from the
    start. *)
Theorem gp_objective_needs_learn (maximize_scalar maximize_array : Optimizer R X MRaw)
    (y : vector R) (mean : Func R MRaw (vector R))
    (cov : Func R (X * X) (matrix R)) self :
  GP.__init__ y mean cov = Ok self →
  GP.value self = (Raise (AttributeError "value"), self) ∧
  GP.gradient self = (Raise (AttributeError "gradient"), self) ∧
  Inference.value self = Inference.lml self ∧
  Inference.gradient self = Inference.lml_gradient self ∧
  (free_mean self = [] → free_cov self = [] →
   ∃ self', GP.learn maximize_scalar maximize_array self = (Ok tt, self') ∧
            GP.value self' = GP.lml self' ∧
            GP.gradient self' = GP.lml_gradient self').
Proof.
  intros [= <-]. split; [done|]. split; [done|]. split; [done|].
  split; [done|]. intros Hfm Hfc.
  destruct (learn_cases maximize_scalar maximize_array
              {| _y := y; _cov := cov; _mean := mean; _dict := ∅ |})
    as ([HG _] & _).
  { unfold free_mean, free_cov in *. simpl in *. by rewrite Hfm, Hfc. }
  eexists. split; [exact HG|]. split.
  - unfold GP.value. unfold mbind, M_bind, gets. simpl.
    rewrite decide_True; [done|]. set_solver.
  - unfold GP.gradient. unfold mbind, M_bind, gets. simpl.
    rewrite decide_True; [done|]. set_solver.
Qed.
End more_core.

(** * Further properties of the heritability drivers *)

Section more_outcomes.
Context {S : Type}.





Lemma preserves_bind {A B} (P : S → Prop) (m : M S A) (f : A → M S B) :
  preserves P m → (∀ a, preserves P (f a)) → preserves P (m ≫= f).
Proof.
  intros Hm Hf s Hs. unfold mbind, M_bind. specialize (Hm s Hs).
  destruct (m s) as [[a|e] s1]; simpl in Hm; [by apply Hf|done].
Qed.
End more_outcomes.

Section more_driver.
Context {Obj Heap : Type}.
Import Estimate.
Variable ext : string → list (pyval Obj) → M Heap (pyval Obj).
Variable truth : pyval Obj → M Heap bool.

Lemma load_global_asarray :
  raises (NameError "asarray") (load_global ext "asarray").
Proof.
  intros s. unfold load_global. rewrite decide_False; [by eexists|].
  unfold module_globals. intros Hin.
  repeat (apply elem_of_cons in Hin as [Hin|Hin]; [discriminate Hin|]).
  by apply elem_of_nil in Hin.
Qed.

(** X11. [binomial_estimate] returns for no input: it calls [asarray],
    which the module does not import, before it reads any of its
    arguments; once the two calls of the logger have returned, the
    exception is the [NameError] of [asarray]. *)
Theorem binomial_estimate_never_returns (nsuccesses ntrials G K covariate : pyval Obj) :
  never_returns (binomial_estimate ext truth nsuccesses ntrials G K covariate) ∧
  ((∀ args, returns (λ _, True) (ext "logging.getLogger" args)) →
   (∀ args, returns (λ _, True) (ext "Logger.info" args)) →
   raises (NameError "asarray")
     (binomial_estimate ext truth nsuccesses ntrials G K covariate)).
Proof.
  split.
  - unfold binomial_estimate.
    do 2 (apply never_returns_bind_r; intros ?).
    apply never_returns_bind_l, (raises_never_returns _ _ load_global_asarray).
  - intros Hget Hinfo. unfold binomial_estimate.
    apply (raises_bind_r _ _ _ _ (Hget _)); intros logger _.
    apply (raises_bind_r _ _ _ _ (Hinfo _)); intros _ _.
    apply raises_bind_l, load_global_asarray.
Qed.

(** X12. [poisson_estimate] returns for no input, for the same reason:
    once the two calls of the logger have returned, it raises the
    [NameError] of [asarray]. *)
Theorem poisson_estimate_never_returns (nsuccesses G K covariate : pyval Obj) :
  never_returns (poisson_estimate ext truth nsuccesses G K covariate) ∧
  ((∀ args, returns (λ _, True) (ext "logging.getLogger" args)) →
   (∀ args, returns (λ _, True) (ext "Logger.info" args)) →
   raises (NameError "asarray")
     (poisson_estimate ext truth nsuccesses G K covariate)).
Proof.
  split.
  - unfold poisson_estimate.
    do 2 (apply never_returns_bind_r; intros ?).
    apply never_returns_bind_l, (raises_never_returns _ _ load_global_asarray).
  - intros Hget Hinfo. unfold poisson_estimate.
    apply (raises_bind_r _ _ _ _ (Hget _)); intros logger _.
    apply (raises_bind_r _ _ _ _ (Hinfo _)); intros _ _.
    apply raises_bind_l, load_global_asarray.
Qed.

(** X13. With neither [G] nor [K] given, [bernoulli_estimate] raises the
    exception of its own check, with the message
    [G, K, and QS cannot be all None.], once the logger and the conversion
    of the outcomes have returned; no normalization is called before. *)
Theorem bernoulli_estimate_both_None (outcomes covariate : pyval Obj) :
  (∀ args, returns (λ _, True) (ext "logging.getLogger" args)) →
  (∀ args, returns (λ _, True) (ext "Logger.info" args)) →
  (∀ args, returns (λ _, True) (ext "ascontiguousarray" args)) →
  raises (Exception "G, K, and QS cannot be all None.")
    (bernoulli_estimate ext truth outcomes VNone VNone covariate).
Proof.
  intros Hget Hinfo Hconv. unfold bernoulli_estimate.
  apply (raises_bind_r _ _ _ _ (Hget _)); intros logger _.
  apply (raises_bind_r _ _ _ _ (Hinfo _)); intros _ _.
  apply (raises_bind_r _ _ _ _ (Hconv _)); intros outcomes' _.
  simpl.
  apply (raises_bind_r _ (λ _, True)); [by apply returns_ret|]; intros _ _.
  apply (raises_bind_r _ (λ G', G' = VNone)); [by apply returns_ret|].
  intros G' ->. simpl.
  apply raises_bind_l. intros s. by eexists.
Qed.

Section truth_raises.
Variable e : exn.
Hypothesis Hlib : libraries_return ext.
Hypothesis Htruth : ∀ x, raises e (truth x).






End truth_raises.


(** X15. [stdnorm] given an array [out] to write to makes no use of [X]:
    where the conversion of an array returns and changes nothing, the
    outcome and the effects are the same for every [X]: what is
    normalized, in place, is what [out] holds. *)
Theorem stdnorm_out_ignores_X (X X' axis out : pyval Obj) h :
  conversion_is_pure ext →
  is_None out = false →
  stdnorm ext truth X axis out h = stdnorm ext truth X' axis out h.
Proof.
  intros Hconv Hout. unfold stdnorm.
  destruct (Hconv X h) as [v Hv], (Hconv X' h) as [v' Hv'].
  rewrite (bind_ok _ _ _ _ _ Hv), (bind_ok _ _ _ _ _ Hv').
  by rewrite Hout.
Qed.
End more_driver.

(** * Properties of the binomial scan *)

Section more_scan.
Context {Obj Heap : Type}.
Import Estimate.
#[local] Abbreviation scan := (Scan.BinomialQTLScan (Obj := Obj)).
#[local] Abbreviation world := (scan * Heap)%type.

Lemma cachedmethod_hit (cache : scan → option (pyval Obj))
    (store : option (pyval Obj) → scan → scan)
    (method method' : pyval Obj → M world (pyval Obj)) p p' w r w' :
  (∀ c s, cache (store c s) = c) →
  Scan.cachedmethod cache store method p w = (Ok r, w') →
  Scan.cachedmethod cache store method' p' w' = (Ok r, w').
Proof.
  intros Hlaw. unfold Scan.cachedmethod, Scan.getattr, Scan.setattr.
  unfold mbind at 1, M_bind at 1, gets at 1.
  destruct (cache w.1) as [v|] eqn:Hc.
  - intros [= <- <-]. unfold mbind, M_bind, gets. by rewrite Hc.
  - intros (v & w1 & Hm & Hrest)%bind_inv.
    unfold mbind, M_bind, modify, mret, M_ret in Hrest.
    injection Hrest as <- <-.
    unfold mbind, M_bind, gets. simpl. by rewrite Hlaw.
Qed.

(** X16. A result of [_compute_null_model], and of [_compute_alt_models],
    is computed once: after a call that has returned, every further call
    on the instance returns the same value at once, whatever its argument
    [progress] and with no call into the libraries, and changes nothing. *)
Theorem scan_results_are_cached
    (ext ext' : string → list (pyval Obj) → M Heap (pyval Obj))
    (p p' r : pyval Obj) (w w' : world) :
  (Scan._compute_null_model ext p w = (Ok r, w') →
   Scan._compute_null_model ext' p' w' = (Ok r, w')) ∧
  (Scan._compute_alt_models ext p w = (Ok r, w') →
   Scan._compute_alt_models ext' p' w' = (Ok r, w')).
Proof.
  split; apply cachedmethod_hit; done.
Qed.

Lemma preserves_getattr {A} (P : world → Prop) (f : scan → A) :
  preserves P (Scan.getattr f).
Proof. by intros w Hw. Qed.

Lemma preserves_call (ext : string → list (pyval Obj) → M Heap (pyval Obj))
    (Q : scan → Prop) name args :
  preserves (λ w : world, Q w.1) (Scan.call ext name args).
Proof.
  intros w Hw. unfold Scan.call. by destruct (ext name args w.2).
Qed.

Lemma preserves_call_method
    (ext : string → list (pyval Obj) → M Heap (pyval Obj))
    (Q : scan → Prop) obj name args :
  preserves (λ w : world, Q w.1) (Scan.call_method ext obj name args).
Proof.
  destruct obj; try (by intros w Hw). apply preserves_call.
Qed.

Lemma preserves_setattr (Q : scan → Prop) (f : scan → scan) :
  (∀ s, Q s → Q (f s)) →
  preserves (λ w : world, Q w.1) (Scan.setattr f).
Proof. intros Hf w Hw. by apply Hf. Qed.

Lemma null_model_body_keeps {A}
    (ext : string → list (pyval Obj) → M Heap (pyval Obj)) p
    (f : scan → A) (c : A) :
  (∀ v s, f (Scan.set_null_lml v s) = f s) →
  (∀ v s, f (Scan.set_fixed_ep v s) = f s) →
  preserves (λ w : world, f w.1 = c) (Scan.null_model_body ext p).
Proof.
  intros Hlml Hfep. unfold Scan.null_model_body.
  do 6 (apply preserves_bind; [apply preserves_getattr|]; intros ?).
  apply preserves_bind;
    [apply (preserves_call ext (λ s, f s = c))|]; intros ep.
  apply preserves_bind;
    [apply (preserves_call_method ext (λ s, f s = c))|]; intros _.
  apply preserves_bind;
    [apply (preserves_call_method ext (λ s, f s = c))|]; intros l.
  apply preserves_bind;
    [apply (preserves_setattr (λ s, f s = c)); intros s <-; apply Hlml|];
    intros _.
  apply preserves_bind;
    [apply (preserves_call_method ext (λ s, f s = c))|]; intros fep.
  apply preserves_bind;
    [apply (preserves_setattr (λ s, f s = c)); intros s <-; apply Hfep|];
    intros _.
  by intros w Hw.
Qed.

Lemma alt_models_body_keeps {A}
    (ext : string → list (pyval Obj) → M Heap (pyval Obj)) p
    (f : scan → A) (c : A) :
  (∀ a b s, f (Scan.set_alt a b s) = f s) →
  preserves (λ w : world, f w.1 = c) (Scan.alt_models_body ext p).
Proof.
  intros Halt. unfold Scan.alt_models_body.
  do 3 (apply preserves_bind; [apply preserves_getattr|]; intros ?).
  apply preserves_bind;
    [apply (preserves_call_method ext (λ s, f s = c))|]; intros r.
  apply preserves_bind.
  { unfold Scan.unpack_pair. apply preserves_bind.
    - destruct r as [| | |l|o]; try (by intros w Hw).
      apply preserves_bind;
        [apply (preserves_call ext (λ s, f s = c))|]; intros t.
      destruct t; by intros w Hw.
    - intros [|? [|? [|? ?]]]; by intros w Hw. }
  intros [x y].
  apply preserves_bind;
    [apply (preserves_setattr (λ s, f s = c)); intros s <-; apply Halt|];
    intros _.
  by intros w Hw.
Qed.

Lemma cachedmethod_keeps {A} (cache : scan → option (pyval Obj))
    (store : option (pyval Obj) → scan → scan)
    (method : pyval Obj → M world (pyval Obj)) p (f : scan → A) (c : A) :
  (∀ v s, f (store v s) = f s) →
  preserves (λ w : world, f w.1 = c) (method p) →
  preserves (λ w : world, f w.1 = c) (Scan.cachedmethod cache store method p).
Proof.
  intros Hstore Hmethod. unfold Scan.cachedmethod.
  apply preserves_bind; [apply preserves_getattr|]; intros [v|].
  - by intros w Hw.
  - apply preserves_bind; [exact Hmethod|]; intros v.
    apply preserves_bind;
      [apply (preserves_setattr (λ s, f s = c)); intros s <-; apply Hstore|];
      intros _.
    by intros w Hw.
Qed.

(** X17. A failure of the null model is not cached: when
    [_compute_null_model], called with an empty cache, raises, the cache
    is empty afterwards, so that the next call runs the model again. *)
Theorem scan_failure_is_not_cached
    (ext : string → list (pyval Obj) → M Heap (pyval Obj))
    (p : pyval Obj) (w w' : world) e :
  Scan._cache_compute_null_model w.1 = None →
  Scan._compute_null_model ext p w = (Raise e, w') →
  Scan._cache_compute_null_model w'.1 = None ∧
  ∀ p', Scan._compute_null_model ext p' w'
        = (v ← Scan.null_model_body ext p';
           Scan.setattr (Scan.set_cache_null (Some v));;
           mret v) w'.
Proof.
  intros Hc Hrun.
  assert (Scan._cache_compute_null_model w'.1 = None) as Hc'.
  { revert Hrun.
    unfold Scan._compute_null_model, Scan.cachedmethod, Scan.getattr.
    unfold mbind at 1, M_bind at 1, gets at 1. rewrite Hc.
    pose proof (null_model_body_keeps ext p Scan._cache_compute_null_model
                  None (λ _ _, eq_refl) (λ _ _, eq_refl) w Hc) as Hbody.
    unfold mbind at 1, M_bind at 1.
    destruct (Scan.null_model_body ext p w) as [[v|e1] w1]; simpl in Hbody.
    - by unfold mbind, M_bind, Scan.setattr, modify, mret, M_ret.
    - by intros [= _ <-]. }
  split; [done|]. intros p'.
  unfold Scan._compute_null_model, Scan.cachedmethod, Scan.getattr.
  unfold mbind at 1, M_bind at 1, gets at 1. by rewrite Hc'.
Qed.

(** X18. [_compute_alt_models] needs the null model: as long as
    [_fixed_ep] is [None], as it is on a new instance, the call raises
    [AttributeError] (of [None], which has no [compute]), calls nothing in
    the libraries and caches nothing. *)
Theorem scan_alt_models_before_null_model
    (ext : string → list (pyval Obj) → M Heap (pyval Obj))
    (p : pyval Obj) (w : world) :
  (Scan._fixed_ep w.1 = VNone →
   Scan._cache_compute_alt_models w.1 = None →
   Scan._compute_alt_models ext p w = (Raise (AttributeError "compute"), w)) ∧
  (∀ nsuccesses ntrials covariates X Q0 Q1 S0 h,
     Scan._compute_alt_models ext p
       (Scan.__init__ nsuccesses ntrials covariates X Q0 Q1 S0, h)
     = (Raise (AttributeError "compute"),
        (Scan.__init__ nsuccesses ntrials covariates X Q0 Q1 S0, h))).
Proof.
  assert (∀ w : world,
            Scan._fixed_ep w.1 = VNone →
            Scan._cache_compute_alt_models w.1 = None →
            Scan._compute_alt_models ext p w
            = (Raise (AttributeError "compute"), w)) as H.
  { intros w0 Hf Hc.
    unfold Scan._compute_alt_models, Scan.cachedmethod, Scan.alt_models_body,
      Scan.getattr, mbind, M_bind, gets.
    rewrite Hc, Hf. done. }
  split; [apply H|]. intros. by apply H.
Qed.

(** X19. Neither computation touches what the constructor was given, nor
    what belongs to the other: whatever its outcome, [_compute_null_model]
    leaves the seven inputs, the cache of the alternative models and
    [_alt_lmls] and [_effect_sizes] as they were, and [_compute_alt_models]
    leaves the seven inputs, the cache of the null model and [_null_lml]
    and [_fixed_ep] as they were. *)
Theorem scan_computations_frame
    (ext : string → list (pyval Obj) → M Heap (pyval Obj))
    (p : pyval Obj) (w : world) :
  (∀ s', s' = (Scan._compute_null_model ext p w).2.1 →
     (Scan._X s' = Scan._X w.1 ∧
      Scan._nsuccesses s' = Scan._nsuccesses w.1 ∧
      Scan._ntrials s' = Scan._ntrials w.1 ∧
      Scan._covariates s' = Scan._covariates w.1 ∧
      Scan._Q0 s' = Scan._Q0 w.1 ∧ Scan._Q1 s' = Scan._Q1 w.1 ∧
      Scan._S0 s' = Scan._S0 w.1) ∧
     Scan._cache_compute_alt_models s' = Scan._cache_compute_alt_models w.1 ∧
     Scan._alt_lmls s' = Scan._alt_lmls w.1 ∧
     Scan._effect_sizes s' = Scan._effect_sizes w.1) ∧
  (∀ s', s' = (Scan._compute_alt_models ext p w).2.1 →
     (Scan._X s' = Scan._X w.1 ∧
      Scan._nsuccesses s' = Scan._nsuccesses w.1 ∧
      Scan._ntrials s' = Scan._ntrials w.1 ∧
      Scan._covariates s' = Scan._covariates w.1 ∧
      Scan._Q0 s' = Scan._Q0 w.1 ∧ Scan._Q1 s' = Scan._Q1 w.1 ∧
      Scan._S0 s' = Scan._S0 w.1) ∧
     Scan._cache_compute_null_model s' = Scan._cache_compute_null_model w.1 ∧
     Scan._null_lml s' = Scan._null_lml w.1 ∧
     Scan._fixed_ep s' = Scan._fixed_ep w.1).
Proof.
  assert (∀ {A} (f : scan → A),
            (∀ v s, f (Scan.set_cache_null v s) = f s) →
            (∀ v s, f (Scan.set_null_lml v s) = f s) →
            (∀ v s, f (Scan.set_fixed_ep v s) = f s) →
            f (Scan._compute_null_model ext p w).2.1 = f w.1) as Hnull.
  { intros A f H1 H2 H3.
    apply (cachedmethod_keeps _ _ _ p f (f w.1) H1
             (null_model_body_keeps ext p f (f w.1) H2 H3) w eq_refl). }
  assert (∀ {A} (f : scan → A),
            (∀ v s, f (Scan.set_cache_alt v s) = f s) →
            (∀ a b s, f (Scan.set_alt a b s) = f s) →
            f (Scan._compute_alt_models ext p w).2.1 = f w.1) as Halt.
  { intros A f H1 H2.
    apply (cachedmethod_keeps _ _ _ p f (f w.1) H1
             (alt_models_body_keeps ext p f (f w.1) H2) w eq_refl). }
  split; intros s' ->.
  - repeat split; by apply Hnull.
  - repeat split; by apply Halt.
Qed.
End more_scan.

(** * The further properties on the reference instance *)

Section more_concrete.
Import Exact.
Import Estimate.
#[local] Abbreviation ex := (example false false).
#[local] Abbreviation samples := (list (vector Qc)).

Lemma lml_gradient_nothing_free_witness :
  GP.lml_gradient (example true true) = (Ok [], example true true) ∧
  Inference.lml_gradient (example true true) = (Ok [], example true true).
Proof.
  destruct (example_lml_facts true true)
    as (m & K & ym & Kiym & s & ld & Hm & HK & Hsub & Hsolve & _).
  apply (lml_gradient_nothing_free (example true true) K ym Kiym
           eq_refl eq_refl HK).
  by exists m, K.
Defined.

Lemma example_singular_facts :
  ∃ m K ym m_p,
    mean_value example_singular "learn" m ∧
    cov_value example_singular "learn" K ∧
    sub (_y example_singular) m = Ok ym ∧
    solve K ym = Raise LinAlgError ∧
    mean_value example_singular "predict" m_p.
Proof.
  eexists _, _, _, _.
  split; [eexists; split; vm_compute; reflexivity|].
  split; [eexists; split; vm_compute; reflexivity|].
  split; [vm_compute; reflexivity|].
  split; [vm_compute; reflexivity|].
  eexists; split; vm_compute; reflexivity.
Defined.

Lemma solve_failure_propagates_witness :
  GP.lml example_singular = (Raise LinAlgError, example_singular) ∧
  GP.lml_gradient example_singular = (Raise LinAlgError, example_singular) ∧
  GP.predict example_singular = (Raise LinAlgError, example_singular) ∧
  Inference.predict example_singular = (Raise LinAlgError, example_singular).
Proof.
  destruct example_singular_facts
    as (m & K & ym & m_p & Hm & HK & Hsub & Hsolve & Hmp).
  destruct (solve_failure_propagates example_singular m K ym LinAlgError
              Hm HK Hsub Hsolve) as (Hlml & Hgrad & _ & _ & Hpredict).
  destruct (Hpredict m_p Hmp) as [HG HI].
  repeat split; assumption.
Defined.

Lemma example_stub_mean_facts (dMs : list (vector Qc)) :
  ∃ K ym Kiym dK KidK,
    cov_value (example_stub_mean dMs) "learn" K ∧
    learn_solve (example_stub_mean dMs) ym Kiym ∧
    cov_gradient (example_stub_mean dMs) "learn" [dK] ∧
    nrows dK = length Kiym ∧ ncols dK = length Kiym ∧
    solve_matrix K dK = Ok KidK ∧
    mean_gradient (example_stub_mean dMs) "learn" dMs ∧
    length Kiym = 2%nat.
Proof.
  eexists _, _, _, _, _.
  split; [eexists; split; vm_compute; reflexivity|].
  split.
  { eexists _, _. split; [eexists; split; vm_compute; reflexivity|].
    split; [eexists; split; vm_compute; reflexivity|].
    split; vm_compute; reflexivity. }
  split; [eexists; split; vm_compute; reflexivity|].
  split; [reflexivity|]. split; [reflexivity|].
  split; [vm_compute; reflexivity|].
  split; [eexists; split; vm_compute; reflexivity|].
  reflexivity.
Defined.

Lemma lml_gradient_too_few_mean_derivatives_witness :
  GP.lml_gradient (example_stub_mean one_derivative)
    = (Raise IndexError, example_stub_mean one_derivative) ∧
  Inference.lml_gradient (example_stub_mean one_derivative)
    = (Raise IndexError, example_stub_mean one_derivative).
Proof.
  destruct (example_stub_mean_facts one_derivative)
    as (K & ym & Kiym & dK & KidK
        & HK & HKim & HdK & Hr & Hc & HS & HdM & Hlen).
  destruct (GP_lml_gradient_cov_run _ K ym Kiym [dK] HK HKim HdK eq_refl)
    as (gc & Hgc & _).
  { intros ? ->%list_elem_of_singleton. eauto. }
  apply (lml_gradient_too_few_mean_derivatives _ ym Kiym one_derivative gc
           Hgc HKim HdM).
  - simpl. lia.
  - intros ? ->%list_elem_of_singleton. by rewrite Hlen.
Defined.

Lemma lml_gradient_mean_surplus_witness :
  ∃ g,
    GP._lml_gradient_mean (example_stub_mean three_derivatives)
      = (Ok g, example_stub_mean three_derivatives) ∧
    Inference._lml_gradient_mean (example_stub_mean three_derivatives)
      = (Ok g, example_stub_mean three_derivatives) ∧
    length g = 2%nat.
Proof.
  destruct (example_stub_mean_facts three_derivatives)
    as (K & ym & Kiym & dK & KidK
        & HK & HKim & HdK & Hr & Hc & HS & HdM & Hlen).
  destruct (lml_gradient_mean_surplus _ ym Kiym three_derivatives HKim HdM)
    as [HG HI].
  - simpl. lia.
  - intros dM HdM'. apply list_elem_of_In in HdM'. rewrite Hlen.
    destruct HdM' as [<-|[<-|[]]]; reflexivity.
  - eexists. split; [exact HG|]. split; [exact HI|]. reflexivity.
Defined.

Lemma example_stub_cov_facts :
  ∃ K ym Kiym,
    cov_value (example_stub_cov one_cov_derivative) "learn" K ∧
    learn_solve (example_stub_cov one_cov_derivative) ym Kiym ∧
    cov_gradient (example_stub_cov one_cov_derivative) "learn"
      one_cov_derivative ∧
    (∃ KidK, solve_matrix K (inner_products X_learn X_learn) = Ok KidK) ∧
    length Kiym = 2%nat.
Proof.
  eexists _, _, _.
  split; [eexists; split; vm_compute; reflexivity|].
  split.
  { eexists _, _. split; [eexists; split; vm_compute; reflexivity|].
    split; [eexists; split; vm_compute; reflexivity|].
    split; vm_compute; reflexivity. }
  split; [eexists; split; vm_compute; reflexivity|].
  split; [eexists; vm_compute; reflexivity|].
  reflexivity.
Defined.

Lemma lml_gradient_too_few_cov_derivatives_witness :
  GP.lml_gradient (example_stub_cov one_cov_derivative)
    = (Raise IndexError, example_stub_cov one_cov_derivative) ∧
  Inference.lml_gradient (example_stub_cov one_cov_derivative)
    = (Raise IndexError, example_stub_cov one_cov_derivative).
Proof.
  destruct example_stub_cov_facts as (K & ym & Kiym & HK & HKim & HdK & HS & Hlen).
  apply (lml_gradient_too_few_cov_derivatives _ K ym Kiym one_cov_derivative
           HK HKim HdK).
  - simpl. lia.
  - intros ? ->%list_elem_of_singleton. rewrite Hlen. by repeat split.
Defined.

Lemma example_cross_predict_facts :
  ∃ m_p ym Kiym h,
    mean_value (example_cross cross_undefined (X_predict, X_learn))
      "predict" m_p ∧
    learn_solve (example_cross cross_undefined (X_predict, X_learn)) ym Kiym ∧
    data (_cov (example_cross cross_undefined (X_predict, X_learn))) "predict"
      = Ok h ∧
    hd_value h = Raise (Exception "no cross-covariance").
Proof.
  eexists _, _, _, _.
  split; [eexists; split; vm_compute; reflexivity|].
  split.
  { eexists _, _. split; [eexists; split; vm_compute; reflexivity|].
    split; [eexists; split; vm_compute; reflexivity|].
    split; vm_compute; reflexivity. }
  split; [reflexivity|]. vm_compute. reflexivity.
Defined.

Lemma predict_needs_unused_covariance_witness :
  GP.predict (example_cross cross_undefined (X_predict, X_learn))
    = (Raise (Exception "no cross-covariance"),
       example_cross cross_undefined (X_predict, X_learn)) ∧
  Inference.predict (example_cross cross_undefined (X_predict, X_learn))
    = (Raise (Exception "no cross-covariance"),
       example_cross cross_undefined (X_predict, X_learn)).
Proof.
  destruct example_cross_predict_facts
    as (m_p & ym & Kiym & h & Hmp & HKim & Hd & Hv).
  exact (predict_needs_unused_covariance _ m_p ym Kiym h _ Hmp HKim Hd Hv).
Defined.

Lemma gp_objective_needs_learn_witness :
  GP.value (example true true)
    = (Raise (AttributeError "value"), example true true) ∧
  GP.gradient (example true true)
    = (Raise (AttributeError "gradient"), example true true) ∧
  ∃ self',
    GP.learn probe_value probe_gradient (example true true) = (Ok tt, self') ∧
    GP.value self' = GP.lml self' ∧
    GP.gradient self' = GP.lml_gradient self'.
Proof.
  destruct (gp_objective_needs_learn probe_value probe_gradient
              (_y (example true true)) (_mean (example true true))
              (_cov (example true true)) (example true true) eq_refl)
    as (Hv & Hg & _ & _ & Hlearn).
  split; [exact Hv|]. split; [exact Hg|].
  exact (Hlearn eq_refl eq_refl).
Defined.

Lemma quiet_libraries_return {Heap : Type} :
  libraries_return (Heap := Heap) quiet_ext.
Proof.
  destruct (quiet_well_behaved (Heap := Heap)) as (H1 & _ & H3 & _).
  by split.
Defined.

Lemma binomial_estimate_never_returns_witness :
  raises (S := unit) (NameError "asarray")
    (binomial_estimate quiet_ext quiet_truth
       (VObj tt) (VObj tt) (VObj tt) VNone VNone).
Proof.
  destruct (binomial_estimate_never_returns (Heap := unit)
              quiet_ext quiet_truth (VObj tt) (VObj tt) (VObj tt) VNone VNone)
    as [_ H].
  apply H; intros args; apply (proj1 quiet_libraries_return).
Defined.

Lemma poisson_estimate_never_returns_witness :
  raises (S := unit) (NameError "asarray")
    (poisson_estimate quiet_ext quiet_truth (VObj tt) (VObj tt) VNone VNone).
Proof.
  destruct (poisson_estimate_never_returns (Heap := unit)
              quiet_ext quiet_truth (VObj tt) (VObj tt) VNone VNone)
    as [_ H].
  apply H; intros args; apply (proj1 quiet_libraries_return).
Defined.

Lemma bernoulli_estimate_both_None_witness :
  raises (S := unit) (Exception "G, K, and QS cannot be all None.")
    (bernoulli_estimate quiet_ext quiet_truth (VObj tt) VNone VNone VNone).
Proof.
  apply (bernoulli_estimate_both_None (Heap := unit) quiet_ext quiet_truth);
    intros args; apply (proj1 quiet_libraries_return).
Defined.


Lemma stdnorm_out_ignores_X_witness :
  stdnorm (Heap := unit) quiet_ext quiet_truth
    (VInt 0) VNone (VObj tt) tt
  = stdnorm quiet_ext quiet_truth (VStr "markers") VNone (VObj tt) tt.
Proof.
  apply (stdnorm_out_ignores_X (Heap := unit) quiet_ext quiet_truth).
  - intros x h. by eexists.
  - reflexivity.
Defined.

Lemma scan_results_are_cached_witness :
  ∃ r w',
    Scan._compute_null_model (Heap := unit) quiet_ext (VInt 1)
      (Scan.__init__ (VObj tt) (VObj tt) VNone (VObj tt)
         (VObj tt) (VObj tt) (VObj tt), tt) = (Ok r, w') ∧
    Scan._compute_null_model (failing_ext LinAlgError) (VInt 0) w'
      = (Ok r, w').
Proof.
  eexists _, _. split; [reflexivity|].
  apply (proj1 (scan_results_are_cached (Heap := unit) quiet_ext
                  (failing_ext LinAlgError) (VInt 1) (VInt 0) _
                  (Scan.__init__ (VObj tt) (VObj tt) VNone (VObj tt)
                     (VObj tt) (VObj tt) (VObj tt), tt) _)).
  reflexivity.
Defined.

Lemma scan_failure_is_not_cached_witness :
  ∃ w',
    Scan._compute_null_model (Heap := unit) (failing_ext LinAlgError) (VInt 0)
      (Scan.__init__ (VObj tt) (VObj tt) VNone (VObj tt)
         (VObj tt) (VObj tt) (VObj tt), tt) = (Raise LinAlgError, w') ∧
    Scan._cache_compute_null_model w'.1 = None.
Proof.
  eexists. split; [reflexivity|].
  apply (scan_failure_is_not_cached (Heap := unit) (failing_ext LinAlgError)
           (VInt 0)
           (Scan.__init__ (VObj tt) (VObj tt) VNone (VObj tt)
              (VObj tt) (VObj tt) (VObj tt), tt) _ LinAlgError);
    reflexivity.
Defined.
End more_concrete.
